(** * Ledger core of the guagua bookkeeping application

    A shallow embedding of [src/app.py] (and of the sample data of
    [src/seed.py]): the normalisation function [compute_net_cny], the entry
    creation of the [dashboard] view, and the reporting queries of the
    [dashboard] and [accounts] views.

    Conventions of the embedding.
    - A Python [float] is a binary64 number: Rocq's primitive [float], whose
      operations are the IEEE 754 ones (round to nearest, ties to even).
      Equality of floats is Leibniz equality, which tells the two zeros
      apart and identifies the NaNs; [same_number] also identifies the
      zeros, as Python's [==] does.
    - A Python value that may be [None] is an [option].
    - A [datetime.date] is its proleptic Gregorian ordinal
      ([date.toordinal()]), so that [d + timedelta(days=k)] is [d + k];
      year, month and day are recovered as [datetime] does.
    - The database is SQLite, the default of [create_app]: a pair of row
      lists; a query is the list function computing its result, rows kept
      in table order. A NaN written to a float column is stored as NULL, so
      that a column declared [nullable=False] refuses it, and a zero is kept
      without its sign; every other float is read back as it was written.
      Where a query asks for no order, the order of its groups is a
      parameter. *)

From Stdlib Require Import ZArith Floats String Ascii List Bool Lia.
From Stdlib Require Import OrderedTypeEx Sorted.
From stdpp Require Import gmap strings list.

Set Warnings "-inexact-float".

Local Open Scope Z_scope.

(** ** Python floats *)

(** [bool(x)] for a float: every float but the two zeros is true
    (a NaN is true). *)
Definition truthy (x : float) : bool := negb (x =? 0)%float.

(** [x or d], for [x] a float or [None]. *)
Definition py_or (x : option float) (d : float) : float :=
  match x with
  | Some v => if truthy v then v else d
  | None => d
  end.

(** The nearest integer to [m * 2^e * 100], ties to the even one. *)
Definition scaled_half_even (m : positive) (e : Z) : Z :=
  let n := Z.pos m * 100 in
  match e with
  | Z.neg p =>
      let d := 2 ^ Z.pos p in
      let q := n / d in
      match 2 * (n mod d) ?= d with
      | Lt => q
      | Gt => q + 1
      | Eq => if Z.even q then q else q + 1
      end
  | _ => n * 2 ^ e
  end.

(** The binary64 number nearest to [n / 100], with sign [s]. *)
Definition hundredth (s : bool) (n : Z) : spec_float :=
  match n with
  | Z.pos _ =>
      let '(mz, ez, lz) := SFdiv_core_binary prec emax n 0 100 0 in
      binary_round_aux prec emax s mz ez lz
  | _ => S754_zero s
  end.

(** The builtin [round(x, 2)] on a float: an infinity or a NaN is returned
    as it is; a finite [x] is rounded, on its exact value, to the nearest
    multiple of 1/100 (ties to even), which is then read back as the nearest
    float; the sign of [x] is kept, also on a zero result. *)
Definition py_round2 (x : float) : float :=
  match Prim2SF x with
  | S754_finite s m e => SF2Prim (hundredth s (scaled_half_even m e))
  | _ => x
  end.

(** ** The normalisation function (app.py, [compute_net_cny]) *)

Definition income : string := "收入".
Definition expense : string := "支出".

Definition compute_net_cny (direction : string)
    (amount fee rate_to_cny : option float) : float :=
  let amount_cny := (py_or amount 0 * py_or rate_to_cny 1)%float in
  let fee_cny := (py_or fee 0 * py_or rate_to_cny 1)%float in
  if String.eqb direction income
  then (amount_cny - fee_cny)%float
  else (- amount_cny - fee_cny)%float.

(** ** Calendar dates (the [datetime.date] operations the views use) *)

(** A date is its ordinal: 1 is 0001-01-01. *)
Abbreviation date := Z (only parsing).

(** [d + timedelta(days=k)] and [d - timedelta(days=k)]. *)
Definition add_days (d : date) (k : Z) : date := d + k.
Definition sub_days (d : date) (k : Z) : date := d - k.

Definition is_leap (year : Z) : bool :=
  (year mod 4 =? 0) && (negb (year mod 100 =? 0) || (year mod 400 =? 0)).

Definition days_before_year (year : Z) : Z :=
  let y := year - 1 in
  y * 365 + y / 4 - y / 100 + y / 400.

Definition days_before_month (year month : Z) : Z :=
  nth (Z.to_nat month) [0; 0; 31; 59; 90; 120; 151; 181; 212; 243; 273; 304; 334] 0
  + (if (2 <? month) && is_leap year then 1 else 0).

(** [date(year, month, day).toordinal()]. *)
Definition ymd2ord (year month day : Z) : date :=
  days_before_year year + days_before_month year month + day.

(** [date.fromordinal(n)] read as (year, month, day). *)
Definition ord2ymd (n : date) : Z * Z * Z :=
  let n := n - 1 in
  let n400 := n / 146097 in
  let n := n mod 146097 in
  let n100 := n / 36524 in
  let n := n mod 36524 in
  let n4 := n / 1461 in
  let n := n mod 1461 in
  let n1 := n / 365 in
  let n := n mod 365 in
  let year := n400 * 400 + 1 + n100 * 100 + n4 * 4 + n1 in
  if (n1 =? 4) || (n100 =? 4) then (year - 1, 12, 31)
  else
    let leapyear := (n1 =? 3) && (negb (n4 =? 24) || (n100 =? 3)) in
    let month := Z.shiftr (n + 50) 5 in
    let preceding :=
      days_before_month 1 month + (if (2 <? month) && leapyear then 1 else 0) in
    if n <? preceding
    then
      let month := month - 1 in
      let preceding :=
        preceding - (nth (Z.to_nat month) [0; 31; 28; 31; 30; 31; 30; 31; 31; 30; 31; 30; 31] 0
                     + (if (month =? 2) && leapyear then 1 else 0)) in
      (year, month, n - preceding + 1)
    else (year, month, n - preceding + 1).

Definition year_of (d : date) : Z := fst (fst (ord2ymd d)).
Definition month_of (d : date) : Z := snd (fst (ord2ymd d)).
Definition day_of (d : date) : Z := snd (ord2ymd d).

(** [d.replace(day=1)]. *)
Definition replace_day_1 (d : date) : date := ymd2ord (year_of d) (month_of d) 1.

Definition digit (n : Z) : ascii := ascii_of_nat (48 + Z.to_nat (n mod 10)).

Definition pad2 (n : Z) : string :=
  String (digit (n / 10)) (String (digit n) EmptyString).

Definition pad4 (n : Z) : string :=
  String (digit (n / 1000)) (String (digit (n / 100)) (pad2 n)).

(** [d.strftime("%m-%d")]. *)
Definition strftime_md (d : date) : string :=
  pad2 (month_of d) +:+ "-" +:+ pad2 (day_of d).

(** The month label of the monthly query: [strftime('%Y-%m', date)] on
    SQLite, [to_char(date, 'YYYY-MM')] on PostgreSQL, the first seven
    characters of the ISO date otherwise. *)
Definition strftime_ym (d : date) : string :=
  pad4 (year_of d) +:+ "-" +:+ pad2 (month_of d).

(** ** The tables (app.py, classes [Account] and [Entry]) *)

Record Account := {
  a_id : Z;
  a_user_id : Z;
  a_name : string;
  a_initial_balance : option float
}.

Record Entry := {
  e_id : Z;
  e_user_id : Z;
  e_date : date;
  e_direction : string;
  e_amount : float;
  e_fee : option float;
  e_currency : option string;
  e_rate_to_cny : option float;
  e_account_id : option Z;
  e_category : option string;
  e_tags : option string;
  e_note : option string;
  e_net_cny : float
}.

Record Store := {
  accounts : list Account;
  entries : list Entry
}.

(** What a float column holds after [x] was written to it: SQLite takes a
    NaN as NULL, and keeps a float that is an integer as that integer, read
    back as a float: the negative zero comes back as 0.0. *)
Definition written (x : float) : option float :=
  if is_nan x then None
  else if (x =? 0)%float then Some 0%float
  else Some x.

(** The next value of an autoincremented primary key. *)
Definition next_id (ids : list Z) : Z := 1 + fold_right Z.max 0 ids.

(** ** Recording an entry (app.py, [dashboard], POST) *)

(** A numeric or date form field: missing or empty, a text Python parses,
    or a text on which the parser raises. *)
Inductive field (A : Type) :=
  | Absent
  | Parsed (x : A)
  | Malformed.
Arguments Absent {A}.
Arguments Parsed {A} x.
Arguments Malformed {A}.

(** [parse(d.get(k) or default)]: [None] stands for the exception. *)
Definition parse_or {A} (x : field A) (d : A) : option A :=
  match x with
  | Absent => Some d
  | Parsed v => Some v
  | Malformed => None
  end.

(** [s or d] for a text that may be missing. *)
Definition str_or (x : option string) (d : string) : string :=
  match x with
  | Some EmptyString | None => d
  | Some s => s
  end.

(** [str.upper()], on the ASCII letters. *)
Definition upper_ascii (c : ascii) : ascii :=
  let n := nat_of_ascii c in
  if (97 <=? n)%nat && (n <=? 122)%nat then ascii_of_nat (n - 32) else c.

Fixpoint upper (s : string) : string :=
  match s with
  | EmptyString => EmptyString
  | String c s' => String (upper_ascii c) (upper s')
  end.

Record Form := {
  f_date : field date;
  f_direction : option string;
  f_amount : field float;
  f_fee : field float;
  f_currency : option string;
  f_rate_to_cny : field float;
  f_category : option string;
  f_tags : option string;
  f_note : option string;
  (** [account_id]: missing, empty or not made of digits ([Absent]); made
      of digits that [int] reads ([Parsed]); made of digits that [int]
      refuses ([Malformed]) *)
  f_account_id : field Z;
  (** [new_account_name], stripped *)
  f_new_account_name : string
}.

(** The account the entry is booked on, and the accounts table after the
    request: a new account when a name is given, else the user's account
    with the given id, if any. [None] when [int(account_id)] raises, or
    when the id does not fit the 64-bit integers of the database, on which
    the query raises. *)
Definition pick_account (current_user : Z) (accts : list Account) (f : Form)
    : option (option Account * list Account) :=
  match f_new_account_name f with
  | String _ _ as name =>
      let a := {| a_id := next_id (map a_id accts); a_user_id := current_user;
                  a_name := name; a_initial_balance := Some 0%float |} in
      Some (Some a, accts ++ [a])
  | EmptyString =>
      match f_account_id f with
      | Parsed i =>
          if i <? 2 ^ 63
          then Some (head (filter (fun a => (a_id a =? i)
                                            && (a_user_id a =? current_user)) accts),
                     accts)
          else None
      | Absent => Some (None, accts)
      | Malformed => None
      end
  end.

(** The [try] block: [None] when it raises, in which case the session is
    rolled back: a field does not parse, the account id is refused, or the
    amount or the net value is a NaN, which the columns [amount] and
    [net_cny] ([nullable=False]) refuse. *)
Definition try_record (today : date) (current_user : Z) (st : Store) (f : Form)
    : option Store :=
  match parse_or (f_date f) today with
  | None => None
  | Some dt =>
  let direction := str_or (f_direction f) expense in
  let direction :=
    if String.eqb direction income || String.eqb direction expense
    then direction else expense in
  match parse_or (f_amount f) 0%float with
  | None => None
  | Some amount =>
  match parse_or (f_fee f) 0%float with
  | None => None
  | Some fee =>
  let currency := upper (str_or (f_currency f) "CNY") in
  match parse_or (f_rate_to_cny f) 1%float with
  | None => None
  | Some rate_to_cny =>
  let category := str_or (f_category f) "其他" in
  let tags := str_or (f_tags f) "" in
  let note := str_or (f_note f) "" in
  match pick_account current_user (accounts st) f with
  | None => None
  | Some (account_obj, accts) =>
  let net_cny := compute_net_cny direction (Some amount) (Some fee) (Some rate_to_cny) in
  match written (abs amount), written net_cny with
  | Some amount_col, Some net_col =>
      let entry := {|
        e_id := next_id (map e_id (entries st));
        e_user_id := current_user;
        e_date := dt;
        e_direction := direction;
        e_amount := amount_col;
        e_fee := written (abs fee);
        e_currency := Some currency;
        e_rate_to_cny := written rate_to_cny;
        e_account_id := option_map a_id account_obj;
        e_category := Some category;
        e_tags := Some tags;
        e_note := Some note;
        e_net_cny := net_col |} in
      Some {| accounts := accts; entries := entries st ++ [entry] |}
  | _, _ => None
  end end end end end end.

(** The store after the POST request. *)
Definition dashboard_post (today : date) (current_user : Z) (st : Store) (f : Form)
    : Store :=
  match try_record today current_user st f with
  | Some st' => st'
  | None => st
  end.

(** The normalisation function on the stored fields of an entry. *)
Definition net_of_stored (e : Entry) : float :=
  compute_net_cny (e_direction e) (Some (e_amount e)) (e_fee e) (e_rate_to_cny e).

(** The sample rows of seed.py, [run]: sign stripped, then normalised. *)
Definition seed_net (direction : string) (amount fee rate_to_cny : float) : float :=
  let amount := abs amount in
  let fee := abs fee in
  compute_net_cny direction (Some amount) (Some fee) (Some rate_to_cny).

Definition samples : list (string * float * float * float) :=
  [ (income, 1200, 10, 1); (expense, 300, 0, 1); (income, 200, 2, 7.0);
    (expense, 500, 0, 1); (expense, 50, 1, 7.8) ]%float.

Definition seed_nets : list float :=
  map (fun '(d, a, f, r) => seed_net d a f r) samples.

(** ** SQL aggregates *)

(** [SUM] over a group, the rows added in table order: [NULL] on no row. *)
Definition sql_sum (xs : list float) : option float :=
  match xs with
  | [] => None
  | x :: xs' => Some (fold_left PrimFloat.add xs' x)
  end.

(** [COALESCE(x, d)]. *)
Definition coalesce (x : option float) (d : float) : float := default d x.

(** The distinct keys of a column in ascending order, as
    [GROUP BY k ORDER BY k] lists them. *)
Fixpoint insert_key {K} (cmp : K -> K -> comparison) (k : K) (ks : list K) : list K :=
  match ks with
  | [] => [k]
  | x :: ks' =>
      match cmp k x with
      | Lt => k :: ks
      | Eq => ks
      | Gt => x :: insert_key cmp k ks'
      end
  end.

Definition distinct_asc {K} (cmp : K -> K -> comparison) (ks : list K) : list K :=
  fold_right (insert_key cmp) [] ks.

(** ** The dashboard figures (app.py, [dashboard], GET) *)

(** [sum_range]. *)
Definition sum_range (current_user : Z) (es : list Entry) (start_dt end_dt : date)
    : float :=
  let q := coalesce (sql_sum (map e_net_cny (filter (fun e =>
             (e_user_id e =? current_user) && (start_dt <=? e_date e)
             && (e_date e <=? end_dt)) es))) 0%float in
  py_or (Some q) 0%float.

(** The grouped-by-date query over the last 30 days. *)
Definition rows_30 (current_user : Z) (es : list Entry) (start_30 today : date)
    : list (date * option float) :=
  let sel := filter (fun e => (e_user_id e =? current_user)
                              && (start_30 <=? e_date e) && (e_date e <=? today)) es in
  map (fun d => (d, sql_sum (map e_net_cny (filter (fun e => e_date e =? d) sel))))
      (distinct_asc Z.compare (map e_date sel)).

(** [{r[0]: float(r[1]) for r in rows}]; [float(None)] raises, and a group
    has a row, so that a [NULL] sum has no entry here. *)
Definition daily_map_of (rows : list (date * option float)) : gmap Z float :=
  fold_left (fun m r => match r.2 with Some v => <[r.1 := v]> m | None => m end)
            rows ∅.

Record Series := {
  labels_30 : list string;
  values_30 : list float;
  cum_values : list float
}.

(** One turn of the loop [for i in range(30)], on the three lists and the
    running total. *)
Definition series_step (start_30 : date) (daily_map : gmap Z float)
    (acc : Series * float) (i : nat) : Series * float :=
  let '(s, running) := acc in
  let dt := add_days start_30 (Z.of_nat i) in
  let v := default 0%float (daily_map !! dt) in
  let running := (running + v)%float in
  ({| labels_30 := labels_30 s ++ [strftime_md dt];
      values_30 := values_30 s ++ [py_round2 v];
      cum_values := cum_values s ++ [py_round2 running] |}, running).

Definition series_loop (start_30 : date) (daily_map : gmap Z float) (n : nat)
    : Series * float :=
  fold_left (series_step start_30 daily_map) (seq 0 n)
            ({| labels_30 := []; values_30 := []; cum_values := [] |}, 0%float).

(** The 30-day series of the dashboard, from the per-day map. *)
Definition series_30 (today : date) (daily_map : gmap Z float) : Series :=
  let start_30 := sub_days today 29 in
  fst (series_loop start_30 daily_map 30).

(** The start of the monthly window. *)
Definition six_months_ago (today : date) : date :=
  sub_days (replace_day_1 (sub_days (replace_day_1 today) 1)) 150.

(** The grouped-by-month query. *)
Definition month_rows (current_user : Z) (es : list Entry) (since : date)
    : list (string * option float) :=
  let sel := filter (fun e => (e_user_id e =? current_user) && (since <=? e_date e)) es in
  map (fun ym => (ym, sql_sum (map e_net_cny
                       (filter (fun e => String.eqb (strftime_ym (e_date e)) ym) sel))))
      (distinct_asc String.compare (map (fun e => strftime_ym (e_date e)) sel)).

Definition month_labels (rows : list (string * option float)) : list string :=
  map fst rows.

Definition month_values (rows : list (string * option float)) : list float :=
  map (fun r => py_round2 (py_or r.2 0%float)) rows.

(** [case((Entry.net_cny > 0, Entry.net_cny), else_=0.0)]. *)
Definition pos_sum (e : Entry) : float :=
  if (0 <? e_net_cny e)%float then e_net_cny e else 0%float.

(** The rows of a user in one category ([NULL] is a group of its own). *)
Definition in_category (current_user : Z) (c : option string) (es : list Entry)
    : list Entry :=
  filter (fun e => (e_user_id e =? current_user) && bool_decide (e_category e = c)) es.

(** The grouped-by-category query. It asks for no order: [group_order] is
    the order in which the database lists the groups, each once. *)
Definition cat_rows (group_order : list (option string) -> list (option string))
    (current_user : Z) (es : list Entry) : list (option string * option float) :=
  let sel := filter (fun e => e_user_id e =? current_user) es in
  map (fun c => (c, sql_sum (map pos_sum (in_category current_user c es))))
      (group_order (remove_dups (map e_category sel))).

Definition cat_labels (rows : list (option string * option float)) : list string :=
  map (fun r => str_or r.1 "未分类") rows.

Definition cat_values (rows : list (option string * option float)) : list float :=
  map (fun r => py_round2 (py_or r.2 0%float)) rows.

Record Dashboard := {
  today_pl : float;
  week_pl : float;
  month_pl : float;
  series : Series;
  d_month_labels : list string;
  d_month_values : list float;
  d_cat_labels : list string;
  d_cat_values : list float
}.

Definition dashboard_get (group_order : list (option string) -> list (option string))
    (today : date) (current_user : Z) (st : Store) : Dashboard :=
  let es := entries st in
  let start_7 := sub_days today 6 in
  let month_start := replace_day_1 today in
  let start_30 := sub_days today 29 in
  let mrows := month_rows current_user es (six_months_ago today) in
  let crows := cat_rows group_order current_user es in
  {| today_pl := py_round2 (sum_range current_user es today today);
     week_pl := py_round2 (sum_range current_user es start_7 today);
     month_pl := py_round2 (sum_range current_user es month_start today);
     series := series_30 today (daily_map_of (rows_30 current_user es start_30 today));
     d_month_labels := month_labels mrows;
     d_month_values := month_values mrows;
     d_cat_labels := cat_labels crows;
     d_cat_values := cat_values crows |}.

(** ** The account balances (app.py, [accounts], GET) *)

(** [ORDER BY name ASC]: rows of equal name stay in table order. *)
Fixpoint insert_by_name (a : Account) (l : list Account) : list Account :=
  match l with
  | [] => [a]
  | b :: l' =>
      match String.compare (a_name a) (a_name b) with
      | Gt => b :: insert_by_name a l'
      | _ => a :: l
      end
  end.

Definition order_by_name (l : list Account) : list Account :=
  fold_right insert_by_name [] l.

(** The entries the outer join pairs with an account. *)
Definition joined (current_user : Z) (a : Account) (es : list Entry) : list Entry :=
  filter (fun e => bool_decide (e_account_id e = Some (a_id a))
                   && (e_user_id e =? current_user)) es.

(** The joined query: one row per account of the user, with the coalesced
    sum of the entries joined to it. *)
Definition account_rows (current_user : Z) (st : Store) : list (Account * float) :=
  map (fun a => (a, coalesce (sql_sum (map e_net_cny (joined current_user a (entries st))))
                      0%float))
      (order_by_name (filter (fun a => a_user_id a =? current_user) (accounts st))).

Record AcctInfo := {
  i_id : Z;
  i_name : string;
  i_initial_balance : float;
  i_pl : float;
  i_current_balance : float
}.

Definition acct_info_of (row : Account * float) : AcctInfo :=
  let '(acct, pl) := row in
  let cur := py_round2 (py_or (a_initial_balance acct) 0 + py_or (Some pl) 0)%float in
  {| i_id := a_id acct;
     i_name := a_name acct;
     i_initial_balance := py_round2 (py_or (a_initial_balance acct) 0%float);
     i_pl := py_round2 (py_or (Some pl) 0%float);
     i_current_balance := cur |}.

Definition acct_info (current_user : Z) (st : Store) : list AcctInfo :=
  map acct_info_of (account_rows current_user st).

(** ** Vocabulary of the statements *)

(** The value of day [i] of the 30-day window ending [today]: the sum the
    map has for that day, 0.0 when it has none. *)
Definition day_value (today : date) (daily_map : gmap Z float) (i : nat) : float :=
  default 0%float (daily_map !! (today - 29 + Z.of_nat i)).

(** The unrounded total of the first [n] values, from the seed 0.0. *)
Fixpoint running_total (v : nat -> float) (n : nat) : float :=
  match n with
  | O => 0%float
  | S k => (running_total v k + v k)%float
  end.

(** The entries that reference an account. *)
Definition referencing (a : Account) (es : list Entry) : list Entry :=
  filter (fun e => bool_decide (e_account_id e = Some (a_id a))) es.

(** The entries of a user in a month, from a date on. *)
Definition in_month (current_user : Z) (since : date) (ym : string) (es : list Entry)
    : list Entry :=
  filter (fun e => String.eqb (strftime_ym (e_date e)) ym)
    (filter (fun e => (e_user_id e =? current_user) && (since <=? e_date e)) es).

Definition is_digit (c : ascii) : bool :=
  (48 <=? nat_of_ascii c)%nat && (nat_of_ascii c <=? 57)%nat.

(** A text of the shape YYYY-MM. *)
Definition ym_format (s : string) : bool :=
  match s with
  | String y1 (String y2 (String y3 (String y4 (String h (String m1 (String m2
      EmptyString)))))) =>
      is_digit y1 && is_digit y2 && is_digit y3 && is_digit y4
      && Ascii.eqb h "-" && is_digit m1 && is_digit m2
  | _ => false
  end.

(** A text of the shape MM-DD. *)
Definition md_format (s : string) : bool :=
  match s with
  | String m1 (String m2 (String h (String d1 (String d2 EmptyString)))) =>
      is_digit m1 && is_digit m2 && Ascii.eqb h "-" && is_digit d1 && is_digit d2
  | _ => false
  end.

(** Two floats are the same number: they are the same float, or [==] holds
    of them in Python (which identifies the two zeros). *)
Definition same_number (x y : float) : Prop :=
  x = y \/ (x =? y)%float = true.

(** A float that is a number: a zero or a finite non-zero value. *)
Definition finite (x : float) : bool :=
  match Prim2SF x with
  | S754_zero _ | S754_finite _ _ _ => true
  | _ => false
  end.

(** The Income and the Expense branch of the normalisation, as formulas. *)
Definition income_formula (a f r : float) : float := (a * r - f * r)%float.
Definition expense_formula (a f r : float) : float := (- (a * r) - f * r)%float.

(** The relation [same_number] on specification floats. *)
Definition SFsame (x y : spec_float) : Prop :=
  x = y \/ SFeqb x y = true.

(** [x'] is [x], or is [+0] where [x] is [-0]: what [x or 0.0] does to a
    float [x]. *)
Definition zero_fixed (x x' : spec_float) : Prop :=
  x' = x \/ (x = S754_zero true /\ x' = S754_zero false).

(** ** Sample data of the statements *)

(** An entry of user 1 with a given category, account and net value. *)
Definition sample_entry (id : Z) (d : date) (cat : option string)
    (acct : option Z) (net : float) : Entry :=
  {| e_id := id; e_user_id := 1; e_date := d;
     e_direction := if (0 <? net)%float then income else expense;
     e_amount := abs net; e_fee := Some 0%float; e_currency := Some "CNY";
     e_rate_to_cny := Some 1%float; e_account_id := acct; e_category := cat;
     e_tags := Some ""; e_note := Some ""; e_net_cny := net |}.

(** Three entries of net value +100, -40 and +25 in the category X. *)
Definition category_x : list Entry :=
  [ sample_entry 1 739000 (Some "X") None 100;
    sample_entry 2 739001 (Some "X") None (-40);
    sample_entry 3 739002 (Some "X") None 25 ]%float.

(** An income form with the amount typed as -100. *)
Definition negative_income_form : Form :=
  {| f_date := Absent; f_direction := Some income;
     f_amount := Parsed (-100)%float; f_fee := Parsed 0%float;
     f_currency := None; f_rate_to_cny := Parsed 1%float;
     f_category := None; f_tags := None; f_note := None;
     f_account_id := Absent; f_new_account_name := "" |}.

(** Entries of user 1 on 2024-01-15, 2024-03-10 and 2024-03-11, and none in
    February 2024. *)
Definition gap_months : list Entry :=
  [ sample_entry 1 738955 (Some "X") None 20;
    sample_entry 2 738900 (Some "X") None 100;
    sample_entry 3 738956 None None (-5.5) ]%float.

(** An income of 200 dollars at the rate 7, with a fee of 2. *)
Definition usd_income_form : Form :=
  {| f_date := Absent; f_direction := Some income;
     f_amount := Parsed 200%float; f_fee := Parsed 2%float;
     f_currency := Some "usd"; f_rate_to_cny := Parsed 7%float;
     f_category := None; f_tags := None; f_note := None;
     f_account_id := Absent; f_new_account_name := "" |}.

Definition empty_store : Store := {| accounts := []; entries := [] |}.

(** An account of user 1 and a store with one entry booked on it. *)
Definition cash_account : Account :=
  {| a_id := 1; a_user_id := 1; a_name := "cash";
     a_initial_balance := Some 1.234%float |}.

Definition booked_store : Store :=
  {| accounts := [cash_account];
     entries := [sample_entry 1 739000 None (Some 1) 3%float] |}.

(** One account of user 1, opened at 1.234, and no entry. *)
Definition odd_balance_store : Store :=
  {| accounts := [ {| a_id := 1; a_user_id := 1; a_name := "cash";
                      a_initial_balance := Some 1.234%float |} ];
     entries := [] |}.

(** ** The database address (app.py, [create_app]) *)

Fixpoint drop_chars (n : nat) (s : string) : string :=
  match n, s with
  | S k, String _ s' => drop_chars k s'
  | _, _ => s
  end.

(** [s.replace(old, new, 1)]: the first occurrence of [old] replaced. *)
Fixpoint replace_first (old new s : string) : string :=
  if String.prefix old s then new +:+ drop_chars (String.length old) s
  else match s with
       | EmptyString => EmptyString
       | String c s' => String c (replace_first old new s')
       end.

(** The rewriting of [DATABASE_URL] to the psycopg driver. *)
Definition normalize_db_url (db_url : string) : string :=
  if String.prefix "postgres://" db_url
  then replace_first "postgres://" "postgresql+psycopg://" db_url
  else if String.prefix "postgresql://" db_url
  then replace_first "postgresql://" "postgresql+psycopg://" db_url
  else db_url.

(** ** Creating an account (app.py, [accounts], POST) *)

(** The store after the request, for the stripped name and the balance
    field; [None] when the balance does not parse (the exception is not
    caught, nothing is written). The column of the balance is nullable. *)
Definition accounts_post (current_user : Z) (st : Store) (name : string)
    (initial_balance : field float) : option Store :=
  match parse_or initial_balance 0%float with
  | None => None
  | Some b =>
      match name with
      | EmptyString => Some st
      | _ =>
          let acct := {| a_id := next_id (map a_id (accounts st));
                         a_user_id := current_user; a_name := name;
                         a_initial_balance := written b |} in
          Some {| accounts := accounts st ++ [acct]; entries := entries st |}
      end
  end.

(** ** Deleting an entry (app.py, [delete_entry]) *)

(** [None] is the 404 answer of [first_or_404]; the row found is deleted by
    its primary key. *)
Definition delete_entry (current_user : Z) (entry_id : Z) (st : Store)
    : option Store :=
  match head (filter (fun e => (e_id e =? entry_id) && (e_user_id e =? current_user))
                     (entries st)) with
  | None => None
  | Some entry =>
      Some {| accounts := accounts st;
              entries := filter (fun e => negb (e_id e =? e_id entry)) (entries st) |}
  end.

(** ** The exported rows (app.py, [export_csv]) *)

(** [ORDER BY] on a comparison: rows that compare equal stay in table
    order. *)
Fixpoint insert_sorted {A} (cmp : A -> A -> comparison) (a : A) (l : list A) : list A :=
  match l with
  | [] => [a]
  | b :: l' =>
      match cmp a b with
      | Gt => b :: insert_sorted cmp a l'
      | _ => a :: l
      end
  end.

Definition sort_by {A} (cmp : A -> A -> comparison) (l : list A) : list A :=
  fold_right (insert_sorted cmp) [] l.

(** [Entry.date.asc(), Entry.id.asc()]. *)
Definition by_date_then_id (a b : Entry) : comparison :=
  match e_date a ?= e_date b with
  | Eq => e_id a ?= e_id b
  | c => c
  end.

(** The entries [export_csv] writes, one line each after the header: those
    of the user, from [start_date] and up to [end_date] when given, by date
    and id; [None] when a bound does not parse. *)
Definition export_entries (current_user : Z) (start_date end_date : field date)
    (es : list Entry) : option (list Entry) :=
  let q := filter (fun e => e_user_id e =? current_user) es in
  match start_date with
  | Malformed => None
  | _ =>
      let q := match start_date with
               | Parsed d => filter (fun e => d <=? e_date e) q
               | _ => q
               end in
      match end_date with
      | Malformed => None
      | Parsed d => Some (sort_by by_date_then_id (filter (fun e => e_date e <=? d) q))
      | Absent => Some (sort_by by_date_then_id q)
      end
  end.

(** ** Vocabulary of the further statements *)

(** The stores the requests build: account ids and entry ids are keys, and
    an entry booked on an account is booked on an account of its user. *)
Definition wf_store (st : Store) : Prop :=
  NoDup (map a_id (accounts st))
  /\ NoDup (map e_id (entries st))
  /\ forall e i, e ∈ entries st -> e_account_id e = Some i ->
       exists a, a ∈ accounts st /\ a_id a = i /\ a_user_id a = e_user_id e.

(** What a store holds of one user. *)
Definition own (u : Z) (st : Store) : Store :=
  {| accounts := filter (fun a => a_user_id a =? u) (accounts st);
     entries := filter (fun e => e_user_id e =? u) (entries st) |}.

(** The entries of a user on a day of the window from [start] to [stop]. *)
Definition on_day (u : Z) (start stop d : date) (es : list Entry) : list Entry :=
  filter (fun e => e_date e =? d)
    (filter (fun e => (e_user_id e =? u) && (start <=? e_date e)
                      && (e_date e <=? stop)) es).

(** The sum of the net values of a user on day [i] of the 30-day window
    ending [today], 0.0 on a day without entry. *)
Definition day_sum (u : Z) (today : date) (es : list Entry) (i : nat) : float :=
  coalesce (sql_sum (map e_net_cny
              (on_day u (today - 29) today (today - 29 + Z.of_nat i) es))) 0%float.

(** An entry of the user within the bounds given to the export. *)
Definition in_export (u : Z) (start_date end_date : field date) (e : Entry) : bool :=
  (e_user_id e =? u)
  && (match start_date with Parsed d => d <=? e_date e | _ => true end)
  && (match end_date with Parsed d => e_date e <=? d | _ => true end).

(** The month and the day of the month of day [n] of a year, counted from
    0, as [ord2ymd] finds them. *)
Definition month_day (n : Z) (leapyear : bool) : Z * Z :=
  let month := Z.shiftr (n + 50) 5 in
  let preceding :=
    days_before_month 1 month + (if (2 <? month) && leapyear then 1 else 0) in
  if n <? preceding
  then
    let month := month - 1 in
    let preceding :=
      preceding - (nth (Z.to_nat month) [0; 31; 28; 31; 30; 31; 30; 31; 31; 30; 31; 30; 31] 0
                   + (if (month =? 2) && leapyear then 1 else 0)) in
    (month, n - preceding + 1)
  else (month, n - preceding + 1).

(** Day [k] of a year is the day [d] of a month [m] of the calendar, and
    the days before that month and [d] count up to it. *)
Definition month_day_ok (leap : bool) (k : nat) : bool :=
  let n := Z.of_nat k in
  let '(m, d) := month_day n leap in
  (1 <=? m) && (m <=? 12) && (1 <=? d) && (d <=? 31)
  && (nth (Z.to_nat m) [0; 0; 31; 59; 90; 120; 151; 181; 212; 243; 273; 304; 334] 0
      + (if (2 <? m) && leap then 1 else 0) + d - 1 =? n).

(** A specification float of sign [s], or a NaN. *)
Definition has_sign (s : bool) (x : spec_float) : Prop :=
  match x with
  | S754_nan => True
  | S754_zero s' | S754_infinity s' | S754_finite s' _ _ => s' = s
  end.

(** The direction an entry form is recorded with: Income when it says so,
    Expense for every other text or none. *)
Definition direction_of (fm : Form) : string :=
  match f_direction fm with
  | Some d => if String.eqb d income then income else expense
  | None => expense
  end.

(** The account id of an entry form is usable: a new account is named, or
    the id is missing, or it reads as an integer that fits the database. *)
Definition account_id_ok (fm : Form) : Prop :=
  f_new_account_name fm <> EmptyString
  \/ f_account_id fm = Absent
  \/ exists i, f_account_id fm = Parsed i /\ i < 2 ^ 63.

(** The order of the exported rows. *)
Definition date_id_le (a b : Entry) : Prop :=
  e_date a < e_date b \/ (e_date a = e_date b /\ e_id a <= e_id b).

(** * Binary64 facts *)

Section SpecFloats.

Local Abbreviation mul := (SFmul prec emax).
Local Abbreviation sub := (SFsub prec emax).
Local Abbreviation add := (SFadd prec emax).

Lemma SFsame_refl x : SFsame x x.
Proof. now left. Qed.

Lemma sub_zero_r x : sub x (S754_zero false) = x.
Proof. destruct x as [[]|[]| |[] m e]; reflexivity. Qed.

Lemma add_zero_r x : x <> S754_zero true -> add x (S754_zero false) = x.
Proof. destruct x as [[]|[]| |[] m e]; intros H; try reflexivity. now destruct H. Qed.

Lemma sub_zero_fixed_r x z z' r :
  zero_fixed z z' -> SFsame (sub x (mul z' r)) (sub x (mul z r)).
Proof.
  intros [->|[-> ->]]; [apply SFsame_refl|].
  destruct r as [[]|[]| |[] m e], x as [[]|[]| |[] mx ex]; cbn;
    first [now left | now right].
Qed.

Lemma sub_zero_fixed_l y z z' r :
  zero_fixed z z' -> SFsame (sub (mul z' r) y) (sub (mul z r) y).
Proof.
  intros [->|[-> ->]]; [apply SFsame_refl|].
  destruct r as [[]|[]| |[] m e], y as [[]|[]| |[] my ey]; cbn;
    first [now left | now right].
Qed.

Lemma sub_opp_zero_fixed_l y z z' r :
  zero_fixed z z' -> SFsame (sub (SFopp (mul z' r)) y) (sub (SFopp (mul z r)) y).
Proof.
  intros [->|[-> ->]]; [apply SFsame_refl|].
  destruct r as [[]|[]| |[] m e], y as [[]|[]| |[] my ey]; cbn;
    first [now left | now right].
Qed.

Lemma SFsame_trans x y z :
  SFsame x y -> SFsame y z -> SFsame x z.
Proof.
  intros [->|H1] [->|H2]; [now left|now right|now right|].
  right. revert H1 H2. unfold SFeqb.
  destruct x as [[]|[]| |[] mx ex], y as [[]|[]| |[] my ey],
           z as [[]|[]| |[] mz ez]; cbn; try discriminate; try reflexivity.
  all: try (destruct (Z.compare ex ey) eqn:E1; try discriminate;
            destruct (Z.compare ey ez) eqn:E2; try discriminate;
            apply Z.compare_eq in E1, E2; subst;
            rewrite Z.compare_refl;
            destruct (Pos.compare_cont Eq mx my) eqn:E3; try discriminate;
            destruct (Pos.compare_cont Eq my mz) eqn:E4; try discriminate;
            apply Pos.compare_eq in E3, E4; subst;
            now rewrite Pos.compare_cont_refl).
Qed.

(** The sign of a rounded product is the sign it is given. *)
Lemma binary_round_aux_sign s m e l :
  binary_round_aux prec emax s m e l
  = (if s then SFopp (binary_round_aux prec emax false m e l)
     else binary_round_aux prec emax false m e l).
Proof.
  unfold binary_round_aux.
  destruct (shr_fexp prec emax m e l) as [mrs' e'].
  destruct (shr_fexp prec emax _ e' loc_Exact) as [mrs'' e''].
  destruct (shr_m mrs''), s; try reflexivity.
  now destruct (Z.leb e'' _).
Qed.

End SpecFloats.

Section PrimFloats.

Local Open Scope float_scope.

Lemma Prim2SF_zero : Prim2SF 0 = S754_zero false.
Proof. reflexivity. Qed.

Lemma same_number_spec x y :
  SFsame (Prim2SF x) (Prim2SF y) -> same_number x y.
Proof.
  intros [H|H]; [left; now apply Prim2SF_inj|right; now rewrite FloatAxioms.eqb_spec].
Qed.

(** [x or 0.0] is [x], but for the negative zero, which it makes [+0]. *)
Lemma py_or_zero_fixed a :
  zero_fixed (Prim2SF a) (Prim2SF (py_or (Some a) 0)).
Proof.
  unfold py_or, truthy. rewrite FloatAxioms.eqb_spec, Prim2SF_zero.
  destruct (SFeqb (Prim2SF a) (S754_zero false)) eqn:E; cbn [negb];
    [|now left].
  rewrite Prim2SF_zero. unfold SFeqb in E.
  destruct (Prim2SF a) as [[]|[]| |[] m e]; try discriminate E.
  - now right.
  - now left.
Qed.

Lemma py_or_truthy x d : truthy x = true -> py_or (Some x) d = x.
Proof. intros H. unfold py_or. now rewrite H. Qed.

Lemma py_or_falsy x d : truthy x = false -> py_or (Some x) d = d.
Proof. intros H. unfold py_or. now rewrite H. Qed.

Lemma truthy_of_pos r : (0 <? r) = true -> truthy r = true.
Proof.
  unfold truthy. rewrite FloatAxioms.ltb_spec, FloatAxioms.eqb_spec, Prim2SF_zero.
  unfold SFltb, SFeqb.
  now destruct (Prim2SF r) as [[]|[]| |[] m e].
Qed.

Lemma truthy_of_neg r : (r <? 0) = true -> truthy r = true.
Proof.
  unfold truthy. rewrite FloatAxioms.ltb_spec, FloatAxioms.eqb_spec, Prim2SF_zero.
  unfold SFltb, SFeqb.
  now destruct (Prim2SF r) as [[]|[]| |[] m e].
Qed.

(** A finite positive float, on the specification side. *)
Lemma finite_pos_spec r :
  (0 <? r) = true -> finite r = true ->
  exists m e, Prim2SF r = S754_finite false m e.
Proof.
  unfold finite. rewrite FloatAxioms.ltb_spec, Prim2SF_zero. unfold SFltb.
  destruct (Prim2SF r) as [[]|[]| |[] m e]; try discriminate; eauto.
Qed.

Lemma income_branch a f r :
  compute_net_cny income a f r
  = py_or a 0 * py_or r 1 - py_or f 0 * py_or r 1.
Proof. reflexivity. Qed.

Lemma other_branch d a f r :
  d <> income ->
  compute_net_cny d a f r
  = - (py_or a 0 * py_or r 1) - py_or f 0 * py_or r 1.
Proof.
  intros H. unfold compute_net_cny.
  now destruct (String.eqb_spec d income).
Qed.

(** With a rate that [or] keeps, the Income branch is its formula. *)
Lemma income_is_formula a f r :
  truthy r = true ->
  same_number (compute_net_cny income (Some a) (Some f) (Some r))
              (income_formula a f r).
Proof.
  intros Hr. rewrite income_branch, (py_or_truthy r) by assumption.
  apply same_number_spec. unfold income_formula.
  rewrite !FloatAxioms.sub_spec, !FloatAxioms.mul_spec.
  eapply SFsame_trans.
  - apply sub_zero_fixed_l, py_or_zero_fixed.
  - apply sub_zero_fixed_r, py_or_zero_fixed.
Qed.

(** With a rate that [or] keeps, every other branch is the Expense formula. *)
Lemma other_is_formula d a f r :
  d <> income -> truthy r = true ->
  same_number (compute_net_cny d (Some a) (Some f) (Some r))
              (expense_formula a f r).
Proof.
  intros Hd Hr. rewrite other_branch, (py_or_truthy r) by assumption.
  apply same_number_spec. unfold expense_formula.
  rewrite !FloatAxioms.sub_spec, !FloatAxioms.opp_spec, !FloatAxioms.mul_spec.
  eapply SFsame_trans.
  - apply sub_opp_zero_fixed_l, py_or_zero_fixed.
  - apply sub_zero_fixed_r, py_or_zero_fixed.
Qed.

(** When neither amount nor fee is the negative zero, the result and the
    formula are the same float. *)
Lemma py_or_keeps a :
  a <> (-0)%float -> py_or (Some a) 0 = a.
Proof.
  intros H. apply Prim2SF_inj.
  destruct (py_or_zero_fixed a) as [E|[E _]]; [exact E|].
  destruct H. apply Prim2SF_inj. now rewrite E.
Qed.

(** A float is a NaN when its specification is. *)
Lemma is_nan_spec x :
  is_nan x = match Prim2SF x with S754_nan => true | _ => false end.
Proof.
  unfold is_nan. rewrite FloatAxioms.eqb_spec. unfold SFeqb.
  destruct (Prim2SF x) as [[]|[]| |[] m e]; cbn; try reflexivity.
  all: now rewrite Z.compare_refl, Pos.compare_cont_refl.
Qed.

(** Python's [==] holds of a number and itself, and never of a NaN. *)
Lemma number_eqb_refl x : is_nan x = false -> (x =? x) = true.
Proof. unfold is_nan. now destruct (x =? x). Qed.

Lemma nan_eqb x y : is_nan x = true -> (x =? y) = false.
Proof.
  rewrite is_nan_spec, FloatAxioms.eqb_spec.
  destruct (Prim2SF x); first [discriminate | reflexivity].
Qed.

Lemma is_nan_abs x : is_nan (abs x) = is_nan x.
Proof. rewrite !is_nan_spec, FloatAxioms.abs_spec. now destruct (Prim2SF x). Qed.

Lemma is_nan_opp x : is_nan (- x) = is_nan x.
Proof. rewrite !is_nan_spec, FloatAxioms.opp_spec. now destruct (Prim2SF x). Qed.

(** A product or a difference that is a number is one of numbers. *)
Lemma mul_number x y :
  is_nan (x * y) = false -> is_nan x = false /\ is_nan y = false.
Proof.
  rewrite !is_nan_spec, FloatAxioms.mul_spec.
  destruct (Prim2SF x) as [?|?| |? ? ?], (Prim2SF y) as [?|?| |? ? ?];
    first [intros _; split; reflexivity | intros H; discriminate H].
Qed.

Lemma sub_number x y :
  is_nan (x - y) = false -> is_nan x = false /\ is_nan y = false.
Proof.
  rewrite !is_nan_spec, FloatAxioms.sub_spec.
  destruct (Prim2SF x) as [?|?| |? ? ?], (Prim2SF y) as [?|?| |? ? ?];
    first [intros _; split; reflexivity | intros H; discriminate H].
Qed.

Lemma py_or_number x d : is_nan (py_or (Some x) d) = false -> is_nan x = false.
Proof.
  unfold py_or, truthy. destruct (x =? 0) eqn:E; cbn [negb]; [intros _|easy].
  destruct (is_nan x) eqn:N; [|reflexivity].
  now rewrite (nan_eqb x 0 N) in E.
Qed.

(** A net value that is a number comes from an amount, a fee and a rate
    that are numbers. *)
Lemma net_number d a f r :
  is_nan (compute_net_cny d (Some a) (Some f) (Some r)) = false ->
  is_nan a = false /\ is_nan f = false /\ is_nan r = false.
Proof.
  unfold compute_net_cny.
  destruct (String.eqb d income); intros H; apply sub_number in H as [H1 H2];
    rewrite ?is_nan_opp in H1;
    apply mul_number in H1 as [Ha Hr], H2 as [Hf _];
    apply py_or_number in Ha, Hf, Hr; auto.
Qed.

(** What a column holds after a number was written to it. *)
Lemma written_cases x :
  is_nan x = false ->
  (written x = Some x /\ truthy x = true)
  \/ (written x = Some 0 /\ truthy x = false).
Proof.
  unfold written, truthy. intros ->. destruct (x =? 0); cbn [negb]; auto.
Qed.

Lemma written_number x x' : written x = Some x' -> is_nan x = false.
Proof. unfold written. now destruct (is_nan x). Qed.

Lemma written_nan x : is_nan x = true -> written x = None.
Proof. unfold written. now intros ->. Qed.

Lemma zero_eqb x : truthy x = false -> (0 =? x) = true.
Proof.
  unfold truthy. rewrite !FloatAxioms.eqb_spec, Prim2SF_zero.
  now destruct (Prim2SF x) as [[]|[]| |[] m e].
Qed.

(** The float read back is the number written. *)
Lemma written_eqb x x' : written x = Some x' -> (x' =? x) = true.
Proof.
  intros H. pose proof (written_number x x' H) as N.
  destruct (written_cases x N) as [[E _]|[E Hz]];
    rewrite E in H; injection H as <-.
  - now apply number_eqb_refl.
  - now apply zero_eqb.
Qed.

(** [or] does the same to a number before and after it was stored. *)
Lemma py_or_written x d : is_nan x = false -> py_or (written x) d = py_or (Some x) d.
Proof.
  intros N. destruct (written_cases x N) as [[-> _]|[-> Hz]]; [reflexivity|].
  now rewrite (py_or_falsy x).
Qed.

Lemma abs_number_not_negative x : is_nan x = false -> (0 <=? abs x) = true.
Proof.
  rewrite is_nan_spec, FloatAxioms.leb_spec, FloatAxioms.abs_spec, Prim2SF_zero.
  unfold SFleb. now destruct (Prim2SF x) as [[]|[]| |[] m e].
Qed.

Lemma written_not_negative x x' :
  written x = Some x' -> (0 <=? x) = true -> (0 <=? x') = true.
Proof.
  intros H Hx. pose proof (written_number x x' H) as N.
  destruct (written_cases x N) as [[E _]|[E _]];
    rewrite E in H; injection H as <-; [exact Hx|reflexivity].
Qed.

End PrimFloats.

Section MoreSpecFloats.

Local Abbreviation mul := (SFmul prec emax).
Local Abbreviation sub := (SFsub prec emax).

(** Subtracting the fee of a zero fee first changes nothing, for a finite
    positive rate. *)
Lemma fee_split x z z' m e :
  zero_fixed z z' ->
  SFsame (sub x (mul z' (S754_finite false m e)))
         (sub (sub x (mul (S754_zero false) (S754_finite false m e)))
              (mul z (S754_finite false m e))).
Proof.
  intros H. cbn [SFmul xorb]. rewrite sub_zero_r.
  now apply sub_zero_fixed_r.
Qed.

(** The income of [a] at the rate [-r], [r] finite and positive, without
    fee. *)
Lemma negated_rate x x' m e :
  zero_fixed x x' -> SFleb (S754_zero false) x = true ->
  SFsame (sub (mul x' (S754_finite true m e))
              (mul (S754_zero false) (S754_finite true m e)))
         (SFopp (mul x (S754_finite false m e))).
Proof.
  intros Hx Hle.
  destruct x as [s|[]| |[] mx ex]; try discriminate Hle.
  - assert (exists s', x' = S754_zero s') as [s' ->]
      by (destruct Hx as [->|[_ ->]]; eauto).
    right. now destruct s, s'.
  - destruct Hx as [->|[? _]]; [|discriminate]. now left.
  - destruct Hx as [->|[? _]]; [|discriminate].
    cbn [SFmul xorb]. rewrite binary_round_aux_sign.
    destruct (SFopp _) as [[]|[]| |[] my ey]; cbn;
      first [now left | now right].
Qed.

Lemma shr_1_not_negative mrs : 0 <= shr_m mrs -> 0 <= shr_m (shr_1 mrs).
Proof.
  destruct mrs as [m r s]. cbn [shr_m]. intros H.
  destruct m as [|[p|p|]|p]; cbn; lia.
Qed.

Lemma iter_shr_1_not_negative p mrs :
  0 <= shr_m mrs -> 0 <= shr_m (SpecFloat.iter_pos shr_1 p mrs).
Proof.
  revert mrs. induction p as [p IH|p IH|]; intros mrs H; cbn [SpecFloat.iter_pos].
  - apply IH, IH, shr_1_not_negative, H.
  - apply IH, IH, H.
  - apply shr_1_not_negative, H.
Qed.

Lemma shr_fexp_not_negative m e l :
  0 <= m -> 0 <= shr_m (fst (shr_fexp prec emax m e l)).
Proof.
  intros H. unfold shr_fexp, shr.
  assert (H0 : 0 <= shr_m (shr_record_of_loc m l)) by now destruct l as [|[]].
  destruct (fexp prec emax (Zdigits2 m + e) - e); cbn [fst]; try exact H0.
  now apply iter_shr_1_not_negative.
Qed.

Lemma round_nearest_even_not_negative m l :
  0 <= m -> 0 <= round_nearest_even m l.
Proof.
  intros H. unfold round_nearest_even.
  destruct l as [|[]]; try lia. destruct (Z.even m); lia.
Qed.

(** Rounding a mantissa that is not negative never gives a NaN. *)
Lemma binary_round_aux_number s m e l :
  0 <= m -> binary_round_aux prec emax s m e l <> S754_nan.
Proof.
  intros H. unfold binary_round_aux.
  pose proof (shr_fexp_not_negative m e l H) as H1.
  destruct (shr_fexp prec emax m e l) as [mrs' e']. cbn [fst] in H1.
  pose proof (shr_fexp_not_negative
                (round_nearest_even (shr_m mrs') (loc_of_shr_record mrs')) e'
                loc_Exact (round_nearest_even_not_negative _ _ H1)) as H2.
  destruct (shr_fexp prec emax _ e' loc_Exact) as [mrs'' e'']. cbn [fst] in H2.
  destruct (shr_m mrs''); [discriminate| |lia].
  now destruct (_ <=? _).
Qed.

Lemma binary_normalize_number m e sz :
  binary_normalize prec emax m e sz <> S754_nan.
Proof.
  unfold binary_normalize, binary_round.
  destruct m as [|p|p]; [discriminate| |];
    destruct (shl_align p e _) as [mz ez];
    now apply binary_round_aux_number.
Qed.

(** The product of a number and a finite float is a number (it may be an
    infinity). *)
Lemma mul_finite_number x s m e :
  x <> S754_nan -> mul x (S754_finite s m e) <> S754_nan.
Proof.
  destruct x as [sx|sx| |sx mx ex]; intros H; try discriminate; [now destruct H|].
  cbv [SFmul]. now apply binary_round_aux_number.
Qed.

(** A finite float less a number is a number. *)
Lemma sub_finite_number x y :
  (exists s, x = S754_zero s) \/ (exists s m e, x = S754_finite s m e) ->
  y <> S754_nan -> sub x y <> S754_nan.
Proof.
  intros [[s ->]|(s & m & e & ->)] H;
    destruct y as [sy|sy| |sy my ey]; try discriminate; try (now destruct H).
  - now destruct s, sy.
  - cbv [SFsub]. apply binary_normalize_number.
Qed.

End MoreSpecFloats.

(** * The normalisation function *)

Section Normalisation.

Local Open Scope float_scope.

(** C1. For a direction Income or Expense, an amount [a >= 0], a fee
    [f >= 0] and a rate [r > 0], [compute_net_cny] is [a*r - f*r] on Income
    and [-(a*r) - f*r] on Expense: the same number always, and the same
    float when neither [a] nor [f] is the negative zero. *)
Theorem net_is_direction_formula (d : string) (a f r : float) :
  d = income \/ d = expense ->
  (0 <=? a) = true -> (0 <=? f) = true -> (0 <? r) = true ->
  let net := compute_net_cny d (Some a) (Some f) (Some r) in
  (d = income -> same_number net (a * r - f * r))
  /\ (d = expense -> same_number net (- (a * r) - f * r))
  /\ (a <> -0 -> f <> -0 ->
      (d = income -> net = a * r - f * r)
      /\ (d = expense -> net = - (a * r) - f * r)).
Proof.
  intros _ _ _ Hr net. apply truthy_of_pos in Hr. subst net.
  split; [|split].
  - intros ->. now apply income_is_formula.
  - intros ->. now apply other_is_formula.
  - intros Ha Hf. split; intros ->.
    + now rewrite income_branch, !py_or_keeps, py_or_truthy.
    + now rewrite other_branch, !py_or_keeps, py_or_truthy.
Qed.

Lemma net_is_direction_formula_witness :
  same_number (compute_net_cny income (Some 200) (Some 2) (Some 7))
              (200 * 7 - 2 * 7)
  /\ compute_net_cny expense (Some 50) (Some 1) (Some 7.8)
     = - (50 * 7.8) - 1 * 7.8.
Proof.
  split.
  - exact (proj1 (net_is_direction_formula income 200 2 7
             (or_introl eq_refl) eq_refl eq_refl eq_refl) eq_refl).
  - refine (proj2 (proj2 (proj2 (net_is_direction_formula expense 50 1 7.8
             (or_intror eq_refl) eq_refl eq_refl eq_refl)) _ _) eq_refl);
      discriminate.
Defined.

(** The net is the net without fee less [f*r]: the same float, or two
    zeros, or two NaNs; and the same float when [f] is not the negative
    zero. *)
Lemma net_less_fee (d : string) (a f r : float) :
  (0 <? r) = true -> finite r = true ->
  let net := compute_net_cny d (Some a) (Some f) (Some r) in
  let net_without_fee := compute_net_cny d (Some a) (Some 0) (Some r) in
  same_number net (net_without_fee - f * r)
  /\ (f <> -0 -> net = net_without_fee - f * r).
Proof.
  intros Hr Hfin net net0.
  destruct (finite_pos_spec r Hr Hfin) as (m & e & Er).
  apply truthy_of_pos in Hr.
  assert (E0 : py_or (Some 0) 0 = 0) by reflexivity.
  assert (Hsub : forall x, x - 0 * r = x).
  { intros x. apply Prim2SF_inj.
    rewrite FloatAxioms.sub_spec, FloatAxioms.mul_spec, Er, Prim2SF_zero.
    cbn [SF64mul SFmul xorb]. apply sub_zero_r. }
  subst net net0.
  destruct (String.eqb_spec d income) as [->|Hd].
  - rewrite !income_branch, E0, !(py_or_truthy r) by assumption.
    split.
    + apply same_number_spec.
      rewrite !FloatAxioms.sub_spec, !FloatAxioms.mul_spec, Er, Prim2SF_zero.
      apply fee_split, py_or_zero_fixed.
    + intros Hf. now rewrite Hsub, (py_or_keeps f).
  - rewrite !other_branch, E0, !(py_or_truthy r) by assumption.
    split.
    + apply same_number_spec.
      rewrite !FloatAxioms.sub_spec, !FloatAxioms.mul_spec, Er, Prim2SF_zero.
      apply fee_split, py_or_zero_fixed.
    + intros Hf. now rewrite Hsub, (py_or_keeps f).
Qed.

(** The net value is a number when the amount in CNY is finite. *)
Lemma net_is_number (d : string) (a f r : float) :
  (0 <=? f) = true -> (0 <? r) = true -> finite r = true ->
  finite (a * r) = true ->
  is_nan (compute_net_cny d (Some a) (Some f) (Some r)) = false.
Proof.
  intros Hf Hr Hfin Hprod.
  destruct (finite_pos_spec r Hr Hfin) as (m & e & Er).
  apply truthy_of_pos in Hr.
  assert (HA : (exists s, Prim2SF (py_or (Some a) 0 * r) = S754_zero s)
               \/ (exists s m' e',
                     Prim2SF (py_or (Some a) 0 * r) = S754_finite s m' e')).
  { revert Hprod. unfold finite. rewrite !FloatAxioms.mul_spec, Er.
    destruct (py_or_zero_fixed a) as [->|[-> ->]].
    - destruct (SF64mul _ _) as [s|s| |s m' e']; try discriminate; eauto.
    - intros _. left. eexists. reflexivity. }
  assert (HF : Prim2SF (py_or (Some f) 0 * r) <> S754_nan).
  { rewrite FloatAxioms.mul_spec, Er. apply mul_finite_number.
    revert Hf. rewrite FloatAxioms.leb_spec, Prim2SF_zero.
    destruct (py_or_zero_fixed f) as [->|[_ ->]]; [|discriminate].
    intros Hf E. rewrite E in Hf. discriminate Hf. }
  rewrite is_nan_spec. unfold compute_net_cny.
  rewrite !(py_or_truthy r) by assumption.
  destruct (String.eqb d income); rewrite FloatAxioms.sub_spec.
  - destruct (SF64sub _ _) eqn:E; try reflexivity.
    destruct (sub_finite_number _ _ HA HF E).
  - assert (HA' : (exists s, Prim2SF (- (py_or (Some a) 0 * r)) = S754_zero s)
                  \/ (exists s m' e',
                        Prim2SF (- (py_or (Some a) 0 * r))
                        = S754_finite s m' e')).
    { rewrite FloatAxioms.opp_spec.
      destruct HA as [[s ->]|(s & m' & e' & ->)]; cbn [SFopp]; eauto. }
    destruct (SF64sub _ _) eqn:E; try reflexivity.
    destruct (sub_finite_number _ _ HA' HF E).
Qed.

(** C4, amended. For every direction, amount [a >= 0], fee [f >= 0] and
    rate [r > 0] that is a finite number, the net equals ([==]) the net
    without fee less [f*r] exactly when the net is a number (not a NaN); it
    is one, and the relation holds, whenever [a*r] is finite. The two sides
    are the same float when [f] is not the negative zero. *)
Theorem fee_reduces_net (d : string) (a f r : float) :
  (0 <=? a) = true -> (0 <=? f) = true -> (0 <? r) = true -> finite r = true ->
  let net := compute_net_cny d (Some a) (Some f) (Some r) in
  let net_without_fee := compute_net_cny d (Some a) (Some 0) (Some r) in
  (net =? net_without_fee - f * r) = negb (is_nan net)
  /\ (finite (a * r) = true -> (net =? net_without_fee - f * r) = true)
  /\ (f <> -0 -> net = net_without_fee - f * r).
Proof.
  intros _ Hf Hr Hfin net net0.
  destruct (net_less_fee d a f r Hr Hfin) as [Hsame Hexact].
  fold net net0 in Hsame, Hexact.
  assert (Heq : (net =? net0 - f * r) = negb (is_nan net)).
  { destruct (is_nan net) eqn:N; cbn [negb]; [now apply nan_eqb|].
    destruct Hsame as [<-|E]; [now apply number_eqb_refl|exact E]. }
  split; [exact Heq|]. split; [|exact Hexact].
  intros Hprod. rewrite Heq. subst net.
  now rewrite (net_is_number d a f r Hf Hr Hfin Hprod).
Qed.

Lemma fee_reduces_net_witness :
  (compute_net_cny income (Some 200) (Some 2) (Some 7)
   =? compute_net_cny income (Some 200) (Some 0) (Some 7) - 2 * 7) = true.
Proof.
  exact (proj1 (proj2 (fee_reduces_net income 200 2 7
                         eq_refl eq_refl eq_refl eq_refl)) eq_refl).
Defined.

(** C4 as stated fails where the products overflow: for the amount and the
    fee [2^1023] at the rate 2, the Income net is [inf - inf], a NaN, which
    equals nothing; and at the rate [+inf], the Expense net of amount 1 and
    fee 1 is [-inf], while the net without fee is a NaN. *)
Lemma fee_relation_fails_on_overflow :
  (0 <=? 0x1p1023) = true /\ (0 <? 2) = true
  /\ (compute_net_cny income (Some 0x1p1023) (Some 0x1p1023) (Some 2)
      =? compute_net_cny income (Some 0x1p1023) (Some 0) (Some 2)
         - 0x1p1023 * 2) = false
  /\ (0 <=? 1) = true /\ (0 <? infinity) = true
  /\ (compute_net_cny expense (Some 1) (Some 1) (Some infinity)
      =? compute_net_cny expense (Some 1) (Some 0) (Some infinity)
         - 1 * infinity) = false.
Proof. repeat split. Qed.

Lemma truthy_of_opp_pos p :
  (0 <? p) = true -> truthy (- p) = true.
Proof.
  unfold truthy.
  rewrite FloatAxioms.ltb_spec, FloatAxioms.eqb_spec, FloatAxioms.opp_spec,
    Prim2SF_zero.
  unfold SFltb, SFeqb.
  now destruct (Prim2SF p) as [[]|[]| |[] m e].
Qed.

(** C8. [compute_net_cny] is a total function of a text and three
    floats-or-[None]. A rate that is missing or falsy (a zero [z]) is
    replaced by 1.0, a missing amount or fee is 0.0, and a negative rate [n]
    is used as it is; so the income of [x >= 0] at the rate [-p], for [p > 0]
    a finite number and no fee, is the number [-(x*p)]. *)
Theorem defaults_absorb_input (d : string) (a f : option float) (z n x p : float) :
  truthy z = false -> (n <? 0) = true ->
  (0 <=? x) = true -> (0 <? p) = true -> finite p = true ->
  (forall r, exists v, compute_net_cny d a f r = v)
  /\ compute_net_cny d a f None = compute_net_cny d a f (Some 1)
  /\ compute_net_cny d a f (Some z) = compute_net_cny d a f (Some 1)
  /\ (forall r, compute_net_cny d None f r = compute_net_cny d (Some 0) f r)
  /\ (forall r, compute_net_cny d a None r = compute_net_cny d a (Some 0) r)
  /\ py_or (Some n) 1 = n
  /\ compute_net_cny income a f (Some n) = py_or a 0 * n - py_or f 0 * n
  /\ (d <> income ->
      compute_net_cny d a f (Some n) = - (py_or a 0 * n) - py_or f 0 * n)
  /\ same_number (compute_net_cny income (Some x) (Some 0) (Some (- p)))
                 (- (x * p)).
Proof.
  intros Hz Hn Hx Hp Hfin.
  assert (En : py_or (Some n) 1 = n) by now apply py_or_truthy, truthy_of_neg.
  assert (Ez : py_or (Some z) 1 = 1) by now apply py_or_falsy.
  repeat split.
  - intros r. now eexists.
  - unfold compute_net_cny. now rewrite Ez.
  - exact En.
  - now rewrite income_branch, En.
  - intros Hd. now rewrite other_branch, En.
  - destruct (finite_pos_spec p Hp Hfin) as (m & e & Ep).
    rewrite income_branch, (py_or_truthy (- p)) by now apply truthy_of_opp_pos.
    change (py_or (Some 0) 0) with 0.
    apply same_number_spec.
    rewrite FloatAxioms.sub_spec, !FloatAxioms.mul_spec, !FloatAxioms.opp_spec,
      FloatAxioms.mul_spec, Ep, Prim2SF_zero.
    apply negated_rate; [apply py_or_zero_fixed|].
    now rewrite <- Prim2SF_zero, <- FloatAxioms.leb_spec.
Qed.

Lemma defaults_absorb_input_witness :
  compute_net_cny income (Some 100) (Some 5) (Some 0)
  = compute_net_cny income (Some 100) (Some 5) (Some 1)
  /\ same_number (compute_net_cny income (Some 100) (Some 0) (Some (- 7)))
                 (- (100 * 7)).
Proof.
  pose proof (defaults_absorb_input income (Some 100) (Some 5) 0 (- 7) 100 7
                eq_refl eq_refl eq_refl eq_refl eq_refl) as H.
  split; [apply H|]. apply H.
Defined.

(** C9. The five sample entries (Income 1200 fee 10 at rate 1, Expense 300
    at rate 1, Income 200 fee 2 at rate 7, Expense 500 at rate 1, Expense 50
    fee 1 at rate 7.8) normalise to 1190, -300, 1386, -500 and -397.8, which
    add up, in this order, to 1378.2. *)
Theorem seed_scenario :
  seed_nets = [1190; -300; 1386; -500; -397.8]
  /\ fold_left PrimFloat.add seed_nets 0 = 1378.2
  /\ sql_sum seed_nets = Some 1378.2.
Proof. repeat split; vm_compute; reflexivity. Qed.

(** C10. A direction that is not the Income tag takes the Expense branch:
    for every such text and every amount, fee and rate (present or not) the
    result is that of the Expense tag, [-(amount*rate) - fee*rate] on the
    defaulted values, which is the number [-(a*r) - f*r] whenever [or]
    keeps the rate [r]. No direction is rejected. *)
Theorem other_direction_is_expense (d : string) :
  d <> income ->
  (forall a f r : option float,
     compute_net_cny d a f r = compute_net_cny expense a f r
     /\ compute_net_cny d a f r
        = - (py_or a 0 * py_or r 1) - py_or f 0 * py_or r 1)
  /\ (forall a f r : float,
       truthy r = true ->
       same_number (compute_net_cny d (Some a) (Some f) (Some r))
                   (- (a * r) - f * r)).
Proof.
  intros Hd. split.
  - intros a f r. rewrite (other_branch d) by assumption.
    split; [|reflexivity]. now rewrite (other_branch expense).
  - intros a f r Hr. now apply other_is_formula.
Qed.

Lemma other_direction_is_expense_witness :
  compute_net_cny "transfer" (Some 50) (Some 1) None
  = compute_net_cny expense (Some 50) (Some 1) None.
Proof.
  refine (proj1 (proj1 (other_direction_is_expense "transfer" _) _ _ _)).
  discriminate.
Defined.

End Normalisation.

(** * Recording an entry *)

Section Recording.

Local Open Scope float_scope.

(** The sample rows of seed.py are normalised on their absolute values. *)
Lemma seed_net_on_magnitudes d a f r :
  seed_net d a f r = compute_net_cny d (Some (abs a)) (Some (abs f)) (Some r).
Proof. reflexivity. Qed.

(** C2 (the code departs from it). The entry recorded from an income form
    whose amount is typed as -100 stores the amount 100 and the net value
    -100, while the normalisation of the stored fields is 100: the stored
    net value is computed before the sign is stripped. *)
Theorem negative_amount_breaks_invariant :
  exists e,
    entries (dashboard_post 739000 1 empty_store negative_income_form) = [e]
    /\ e_direction e = income
    /\ e_amount e = 100 /\ e_fee e = Some 0 /\ e_rate_to_cny e = Some 1
    /\ e_net_cny e = -100
    /\ net_of_stored e = 100.
Proof. eexists. repeat split. Qed.

End Recording.

(** * The 30-day series *)

Lemma is_digit_digit n : is_digit (digit n) = true.
Proof.
  unfold is_digit, digit.
  pose proof (Z.mod_pos_bound n 10 eq_refl).
  rewrite nat_ascii_embedding by lia.
  apply andb_true_intro. split; apply Nat.leb_le; lia.
Qed.

Lemma md_format_strftime d : md_format (strftime_md d) = true.
Proof.
  unfold strftime_md, pad2, md_format.
  cbv [String.append]. now rewrite !is_digit_digit.
Qed.

Lemma ym_format_strftime d : ym_format (strftime_ym d) = true.
Proof.
  unfold strftime_ym, pad4, pad2, ym_format.
  cbv [String.append]. now rewrite !is_digit_digit.
Qed.

Section Series30.

Variable today : date.
Variable daily_map : gmap Z float.

Local Abbreviation v := (day_value today daily_map).

Lemma series_loop_spec n :
  series_loop (sub_days today 29) daily_map n
  = ({| labels_30 := map (fun i => strftime_md (today - 29 + Z.of_nat i)) (seq 0 n);
        values_30 := map (fun i => py_round2 (v i)) (seq 0 n);
        cum_values := map (fun i => py_round2 (running_total v (S i))) (seq 0 n) |},
     running_total v n).
Proof.
  unfold series_loop. induction n as [|n IH]; [reflexivity|].
  rewrite seq_S, fold_left_app, IH. cbn [fold_left series_step].
  cbn [labels_30 values_30 cum_values Nat.add].
  rewrite !map_app. reflexivity.
Qed.

Lemma lookup_map_seq {A} (f : nat -> A) (n i : nat) :
  (i < n)%nat -> map f (seq 0 n) !! i = Some (f i).
Proof.
  intros H. change (map f (seq 0 n)) with (f <$> seq 0 n).
  rewrite list_lookup_fmap, lookup_seq_lt by assumption. reflexivity.
Qed.

Lemma py_round2_zero : py_round2 0 = 0%float.
Proof. reflexivity. Qed.


End Series30.


(** The running total is not rounded on the way: three days of 0.004 are
    each reported as 0.0, and their cumulative value as 0.01. *)
Lemma cumulative_adds_unrounded :
  let m : gmap Z float :=
    <[738998 := 0.004%float]> (<[738999 := 0.004%float]>
      (<[739000 := 0.004%float]> ∅)) in
  values_30 (series_30 739000 m) !! 29%nat = Some 0%float
  /\ cum_values (series_30 739000 m) !! 28%nat = Some 0.01%float
  /\ cum_values (series_30 739000 m) !! 29%nat = Some 0.01%float.
Proof. repeat split; vm_compute; reflexivity. Qed.


(** * Grouped queries *)

Section DistinctAsc.

Context {K : Type} (cmp : K -> K -> comparison) (lt : K -> K -> Prop).
Hypothesis cmp_eq : forall a b, cmp a b = Eq -> a = b.
Hypothesis cmp_lt : forall a b, cmp a b = Lt -> lt a b.
Hypothesis cmp_gt : forall a b, cmp a b = Gt -> lt b a.
Hypothesis lt_trans : forall a b c, lt a b -> lt b c -> lt a c.

Lemma elem_of_insert_key x k ks :
  x ∈ insert_key cmp k ks <-> x = k \/ x ∈ ks.
Proof.
  induction ks as [|y ks IH]; cbn.
  - rewrite list_elem_of_singleton, elem_of_nil. tauto.
  - destruct (cmp k y) eqn:E.
    + apply cmp_eq in E as ->. rewrite elem_of_cons. tauto.
    + rewrite !elem_of_cons. tauto.
    + rewrite !elem_of_cons, IH. tauto.
Qed.

Lemma insert_key_sorted k ks :
  StronglySorted lt ks -> StronglySorted lt (insert_key cmp k ks).
Proof.
  induction 1 as [|y ks Hs IH Hall]; cbn.
  - repeat constructor.
  - destruct (cmp k y) eqn:E.
    + now constructor.
    + apply cmp_lt in E. constructor; [now constructor|].
      constructor; [exact E|].
      eapply Forall_impl; [exact Hall|]. intros z Hz. eauto.
    + apply cmp_gt in E. constructor; [exact IH|].
      apply Forall_forall. intros z Hz.
      apply elem_of_insert_key in Hz as [->|Hz]; [exact E|].
      rewrite Forall_forall in Hall. auto.
Qed.

Lemma elem_of_distinct_asc x ks : x ∈ distinct_asc cmp ks <-> x ∈ ks.
Proof.
  induction ks as [|k ks IH]; cbn; [reflexivity|].
  rewrite elem_of_insert_key, elem_of_cons, IH. reflexivity.
Qed.

Lemma distinct_asc_sorted ks : StronglySorted lt (distinct_asc cmp ks).
Proof.
  induction ks as [|k ks IH]; cbn; [constructor|].
  now apply insert_key_sorted.
Qed.

End DistinctAsc.

Lemma string_compare_gt a b : String.compare a b = Gt -> String_as_OT.lt b a.
Proof.
  intros H. apply String_as_OT.cmp_lt. unfold String_as_OT.cmp.
  rewrite String.compare_antisym, H. reflexivity.
Qed.

Lemma string_lt_sorted_NoDup (l : list string) :
  StronglySorted String_as_OT.lt l -> NoDup l.
Proof.
  induction 1 as [|x l Hs IH Hall]; constructor; [|exact IH].
  intros Hx. rewrite Forall_forall in Hall.
  now apply (String_as_OT.lt_not_eq x x); [apply Hall|].
Qed.

Lemma month_labels_asc u es since :
  month_labels (month_rows u es since)
  = distinct_asc String.compare
      (map (fun e => strftime_ym (e_date e))
         (filter (fun e => (e_user_id e =? u) && (since <=? e_date e)) es)).
Proof.
  unfold month_labels, month_rows. rewrite map_map. cbn [fst]. apply map_id.
Qed.

Lemma elem_of_filter_bool {A} (p : A -> bool) (x : A) (l : list A) :
  x ∈ filter (fun y => p y) l <-> p x = true /\ x ∈ l.
Proof. rewrite list_elem_of_filter, Is_true_true. reflexivity. Qed.

Lemma month_rows_lookup u es since i ym :
  month_labels (month_rows u es since) !! i = Some ym ->
  month_values (month_rows u es since) !! i
  = Some (py_round2 (py_or (sql_sum (map e_net_cny (in_month u since ym es)))
                           0%float)).
Proof.
  unfold month_labels, month_values, month_rows, in_month.
  rewrite !map_map. cbn [fst snd].
  change (map ?f ?l !! i) with ((f <$> l) !! i).
  rewrite !list_lookup_fmap.
  destruct (_ !! i) as [ym'|]; [|discriminate].
  cbn. now intros [= ->].
Qed.


(** * The category breakdown *)

Section Categories.

Local Open Scope float_scope.

Lemma pos_sum_positive e : (0 <? e_net_cny e) = true -> pos_sum e = e_net_cny e.
Proof. intros H. unfold pos_sum. now rewrite H. Qed.

Lemma pos_sum_negative e : (e_net_cny e <? 0) = true -> pos_sum e = 0.
Proof.
  unfold pos_sum. rewrite !FloatAxioms.ltb_spec, Prim2SF_zero. unfold SFltb.
  now destruct (Prim2SF (e_net_cny e)) as [[]|[]| |[] m ex].
Qed.

Lemma cat_rows_keys order u es :
  map fst (cat_rows order u es)
  = order (remove_dups (map e_category (filter (fun e => (e_user_id e =? u)%Z) es))).
Proof. unfold cat_rows. rewrite map_map. cbn [fst]. apply map_id. Qed.

Lemma cat_rows_lookup order u es i c :
  map fst (cat_rows order u es) !! i = Some c ->
  let s := sql_sum (map pos_sum (in_category u c es)) in
  cat_rows order u es !! i = Some (c, s)
  /\ cat_labels (cat_rows order u es) !! i = Some (str_or c "未分类")
  /\ cat_values (cat_rows order u es) !! i = Some (py_round2 (py_or s 0)).
Proof.
  unfold cat_labels, cat_values, cat_rows.
  rewrite !map_map. cbn [fst snd].
  change (map ?f ?l !! i) with ((f <$> l) !! i).
  rewrite !list_lookup_fmap.
  destruct (_ !! i) as [c'|]; [|discriminate].
  cbn. now intros [= ->].
Qed.

(** The rows of a group are the entries of the user in the category, in
    table order. *)
Lemma in_category_spec u c es :
  in_category u c es = filter (fun e => e_user_id e = u /\ e_category e = c) es.
Proof.
  unfold in_category. apply list_filter_iff. intros e.
  rewrite andb_True, bool_decide_spec, Is_true_true, Z.eqb_eq. reflexivity.
Qed.

(** C5. Whatever the order in which the database lists the groups, the
    breakdown has, for every category in which the user has an entry,
    exactly one row: its sum adds, over the entries of that user in that
    category, the net value of an entry when it is positive and 0.0 when
    it is not, so a negative net value contributes 0.0; the reported value
    is that sum rounded, and the reported label is the category, or "未分类"
    (uncategorised) for the missing one. Net values +100, -40 and +25 in one
    category are reported as 125. *)
Theorem category_sums_positive_part
    (group_order : list (option string) -> list (option string))
    (u : Z) (es : list Entry) (c : option string) :
  (forall l, group_order l ≡ₚ l) ->
  (exists e, e ∈ es /\ e_user_id e = u /\ e_category e = c) ->
  let rows := cat_rows group_order u es in
  let s := sql_sum (map pos_sum
             (filter (fun e => e_user_id e = u /\ e_category e = c) es)) in
  (exists i, rows !! i = Some (c, s)
      /\ (forall j, map fst rows !! j = Some c -> j = i)
      /\ cat_labels rows !! i = Some (str_or c "未分类")
      /\ cat_values rows !! i = Some (py_round2 (py_or s 0)))
  /\ (forall e, (e_net_cny e <? 0) = true -> pos_sum e = 0)
  /\ (forall e, (0 <? e_net_cny e) = true -> pos_sum e = e_net_cny e)
  /\ (forall e, (0 <? e_net_cny e) = false -> pos_sum e = 0)
  /\ str_or None "未分类" = "未分类"
  /\ map e_net_cny category_x = [100; -40; 25]
  /\ cat_labels (cat_rows group_order 1 category_x) = ["X"]
  /\ cat_values (cat_rows group_order 1 category_x) = [125].
Proof.
  intros Horder (e & He & Hu & Hc) rows s.
  assert (Hx : cat_rows group_order 1 category_x
               = [(Some "X", sql_sum (map pos_sum
                                (in_category 1 (Some "X") category_x)))]).
  { unfold cat_rows. cbv zeta. set (keys := remove_dups _).
    assert (Hk : keys = [Some "X"]) by (subst keys; vm_compute; reflexivity).
    rewrite Hk.
    now rewrite (proj1 (Permutation_singleton_r _ _) (Horder [Some "X"])). }
  split; [|split; [exact pos_sum_negative|split; [exact pos_sum_positive|]];
           (split; [intros e' E; unfold pos_sum; now rewrite E|]);
           rewrite ?Hx; repeat split; vm_compute; reflexivity].
  assert (Hin : c ∈ map fst rows).
  { subst rows. rewrite cat_rows_keys, Horder, elem_of_remove_dups.
    apply list_elem_of_In, in_map_iff. exists e. split; [exact Hc|].
    apply list_elem_of_In, elem_of_filter_bool. split; [lia|exact He]. }
  apply list_elem_of_lookup_1 in Hin as [i Hi].
  exists i. destruct (cat_rows_lookup group_order u es i c Hi) as (H1 & H2 & H3).
  rewrite in_category_spec in H1, H3.
  repeat split; try assumption.
  intros j Hj. eapply NoDup_lookup; [|exact Hj|exact Hi].
  subst rows. rewrite cat_rows_keys, Horder. apply NoDup_remove_dups.
Qed.

Lemma category_sums_positive_part_witness :
  exists i, cat_rows (fun l => l) 1 category_x !! i = Some (Some "X", Some 125).
Proof.
  destruct (proj1 (category_sums_positive_part (fun l => l) 1 category_x (Some "X")
    (fun l => Permutation_refl l)
    (ex_intro _ (sample_entry 1 739000 (Some "X") None 100)
       (conj (list_elem_of_here _ _) (conj eq_refl eq_refl)))))
    as (i & Hi & _).
  exists i. exact Hi.
Defined.

End Categories.

(** * The account balances *)

Section Balances.

Local Open Scope float_scope.

(** Adding the one or the other zero to a float that is not the negative
    zero gives the same float. *)
Lemma add_zero_fixed x z z' :
  x <> S754_zero true -> zero_fixed z z' ->
  SFadd prec emax x z' = SFadd prec emax x z.
Proof.
  intros Hx [->|[-> ->]]; [reflexivity|].
  destruct x as [[]|[]| |[] m e]; try reflexivity. now destruct Hx.
Qed.

(** [x or 0.0] is never the negative zero. *)
Lemma py_or_not_neg_zero (o : option float) :
  Prim2SF (py_or o 0) <> S754_zero true.
Proof.
  destruct o as [x|]; [|discriminate]. unfold py_or, truthy.
  rewrite FloatAxioms.eqb_spec, Prim2SF_zero. unfold SFeqb.
  destruct (Prim2SF x) as [[]|[]| |[] m e] eqn:E; cbn; rewrite ?E; discriminate.
Qed.

Lemma add_py_or (o : option float) (s : float) :
  py_or o 0 + py_or (Some s) 0 = py_or o 0 + s.
Proof.
  apply Prim2SF_inj. rewrite !FloatAxioms.add_spec.
  apply add_zero_fixed; [apply py_or_not_neg_zero|apply py_or_zero_fixed].
Qed.

Lemma add_py_or_zero (o : option float) : py_or o 0 + 0 = py_or o 0.
Proof.
  apply Prim2SF_inj. rewrite FloatAxioms.add_spec, Prim2SF_zero.
  apply add_zero_r, py_or_not_neg_zero.
Qed.

Lemma elem_of_insert_by_name (x a : Account) l :
  x ∈ insert_by_name a l <-> x = a \/ x ∈ l.
Proof.
  induction l as [|b l IH]; cbn.
  - rewrite list_elem_of_singleton, elem_of_nil. tauto.
  - destruct (String.compare (a_name a) (a_name b)); rewrite !elem_of_cons, ?IH; tauto.
Qed.

Lemma elem_of_order_by_name (x : Account) l : x ∈ order_by_name l <-> x ∈ l.
Proof.
  induction l as [|a l IH]; cbn; [reflexivity|].
  rewrite elem_of_insert_by_name, elem_of_cons, IH. reflexivity.
Qed.

(** When the entries booked on an account are its owner's, the join keeps
    the entries that reference the account. *)
Lemma joined_referencing u a es :
  (forall e, e ∈ es -> e_account_id e = Some (a_id a) -> e_user_id e = u) ->
  joined u a es = referencing a es.
Proof.
  intros Hown. unfold joined, referencing.
  induction es as [|e es IH]; [reflexivity|].
  assert (IH' := IH (fun e' He' => Hown e' (list_elem_of_further _ _ _ He'))).
  destruct (decide (e_account_id e = Some (a_id a))) as [E|E].
  - rewrite (filter_cons_True _ e), (filter_cons_True _ e), IH'; [reflexivity| |].
    + now rewrite bool_decide_eq_true_2.
    + rewrite bool_decide_eq_true_2 by assumption. cbn.
      apply Is_true_true, Z.eqb_eq, Hown; [apply list_elem_of_here|exact E].
  - rewrite (filter_cons_False _ e), (filter_cons_False _ e), IH'; [reflexivity| |];
      now rewrite bool_decide_eq_false_2.
Qed.




End Balances.

(** * Further properties of the requests *)

Section Requests.

Local Open Scope float_scope.

Lemma elem_of_map {A B} (f : A -> B) (l : list A) (y : B) :
  y ∈ map f l <-> exists x, y = f x /\ x ∈ l.
Proof. apply (list_elem_of_fmap f). Qed.

Lemma le_fold_max (ids : list Z) (x : Z) :
  x ∈ ids -> (x <= fold_right Z.max 0 ids)%Z.
Proof.
  induction ids as [|y ids IH]; [intros H; now apply elem_of_nil in H|].
  rewrite elem_of_cons. cbn. intros [->|H]; [lia|].
  specialize (IH H). lia.
Qed.

(** An autoincremented key is new. *)
Lemma next_id_fresh (ids : list Z) : next_id ids ∉ ids.
Proof. intros H. apply le_fold_max in H. unfold next_id in H. lia. Qed.

Lemma NoDup_map_snoc {A} (f : A -> Z) (l : list A) (x : A) :
  NoDup (map f l) -> f x ∉ map f l -> NoDup (map f (l ++ [x])).
Proof.
  intros Hl Hx. rewrite map_app. apply NoDup_app. split; [exact Hl|].
  split; [|apply NoDup_singleton].
  intros y Hy Hy'. apply list_elem_of_singleton in Hy'. now subst.
Qed.

(** The account an entry is booked on is an account of the user, and the
    accounts table gains at most one account, of the user, under a new id. *)
Lemma pick_account_spec u accts fm acct accts' :
  pick_account u accts fm = Some (acct, accts') ->
  (accts' = accts
   \/ exists a, accts' = accts ++ [a] /\ a_id a = next_id (map a_id accts)
                /\ a_user_id a = u)
  /\ (forall a, acct = Some a -> a ∈ accts' /\ a_user_id a = u).
Proof.
  unfold pick_account.
  destruct (f_new_account_name fm) as [|c name].
  - destruct (f_account_id fm) as [|i|]; [| |discriminate].
    + intros [= <- <-]. split; [now left|discriminate].
    + destruct (i <? 2 ^ 63)%Z; [|discriminate].
      intros [= <- <-]. split; [now left|].
      intros a Ha. apply head_Some_elem_of, elem_of_filter_bool in Ha.
      destruct Ha as [Hp Ha]. split; [exact Ha|].
      apply andb_prop in Hp as [_ Hu]. lia.
  - intros [= <- <-]. split.
    + right. eexists. repeat split.
    + intros a [= <-]. split; [|reflexivity].
      apply elem_of_app. right. apply list_elem_of_here.
Qed.

(** The account is found, or none is asked for, when the id is one the
    database takes. *)
Lemma pick_account_ok u accts fm :
  account_id_ok fm -> exists r, pick_account u accts fm = Some r.
Proof.
  unfold account_id_ok, pick_account.
  destruct (f_new_account_name fm) as [|c name]; [|eauto].
  intros [H|[->|(i & -> & Hi)]]; [now destruct H|eauto|].
  apply Z.ltb_lt in Hi. rewrite Hi. eauto.
Qed.

Lemma pick_account_refused u accts fm :
  ~ account_id_ok fm -> pick_account u accts fm = None.
Proof.
  unfold account_id_ok, pick_account. intros H.
  destruct (f_new_account_name fm) as [|c name]; [|destruct H; now left].
  destruct (f_account_id fm) as [|i|]; [destruct H; auto| |reflexivity].
  destruct (Z.ltb_spec i (2 ^ 63)) as [Hi|_]; [|reflexivity].
  destruct H. right. right. eauto.
Qed.

(** The direction the handler keeps. *)
Lemma direction_of_spec fm :
  (if String.eqb (str_or (f_direction fm) expense) income
      || String.eqb (str_or (f_direction fm) expense) expense
   then str_or (f_direction fm) expense else expense)
  = direction_of fm.
Proof.
  unfold direction_of. destruct (f_direction fm) as [[|c s]|]; try reflexivity.
  cbn [str_or].
  destruct (String.eqb_spec (String c s) income) as [E|_]; [exact E|].
  cbn [orb]. now destruct (String.eqb_spec (String c s) expense).
Qed.

(** The shape of the store a recorded form leaves. *)
Lemma try_record_shape today u st fm st' :
  try_record today u st fm = Some st' ->
  exists dt amount fee rate acct e,
    parse_or (f_date fm) today = Some dt
    /\ parse_or (f_amount fm) 0 = Some amount
    /\ parse_or (f_fee fm) 0 = Some fee
    /\ parse_or (f_rate_to_cny fm) 1 = Some rate
    /\ pick_account u (accounts st) fm = Some (acct, accounts st')
    /\ entries st' = entries st ++ [e]
    /\ e_id e = next_id (map e_id (entries st))
    /\ e_user_id e = u /\ e_date e = dt
    /\ e_account_id e = option_map a_id acct
    /\ written (abs amount) = Some (e_amount e)
    /\ e_fee e = written (abs fee)
    /\ e_rate_to_cny e = written rate
    /\ e_direction e = direction_of fm
    /\ written (compute_net_cny (direction_of fm) (Some amount) (Some fee)
                  (Some rate))
       = Some (e_net_cny e).
Proof.
  unfold try_record.
  destruct (parse_or (f_date fm) today) as [dt|]; [|discriminate].
  destruct (parse_or (f_amount fm) 0) as [amount|]; [|discriminate].
  destruct (parse_or (f_fee fm) 0) as [fee|]; [|discriminate].
  destruct (parse_or (f_rate_to_cny fm) 1) as [rate|]; [|discriminate].
  destruct (pick_account u (accounts st) fm) as [[acct accts]|]; [|discriminate].
  cbv zeta. rewrite direction_of_spec.
  destruct (written (abs amount)) as [amount_col|] eqn:Eam; [|discriminate].
  destruct (written (compute_net_cny _ _ _ _)) as [net_col|] eqn:Enet;
    [|discriminate].
  intros [= <-]. exists dt, amount, fee, rate, acct. eexists.
  cbn [accounts entries e_id e_user_id e_date e_account_id e_amount e_fee
       e_rate_to_cny e_direction e_net_cny].
  repeat split; assumption.
Qed.

(** A form is recorded when its fields parse, its account id is taken and
    its net value is a number. *)
Lemma try_record_succeeds today u st fm dt amount fee rate :
  parse_or (f_date fm) today = Some dt ->
  parse_or (f_amount fm) 0 = Some amount ->
  parse_or (f_fee fm) 0 = Some fee ->
  parse_or (f_rate_to_cny fm) 1 = Some rate ->
  account_id_ok fm ->
  is_nan (compute_net_cny (direction_of fm) (Some amount) (Some fee) (Some rate))
  = false ->
  exists st', try_record today u st fm = Some st'.
Proof.
  intros Hd Ha Hf Hr Hacct Hnet. unfold try_record.
  rewrite Hd, Ha, Hf, Hr.
  destruct (pick_account_ok u (accounts st) fm Hacct) as [[acct accts] ->].
  cbv zeta. rewrite direction_of_spec.
  destruct (net_number _ _ _ _ Hnet) as (Na & _ & _).
  rewrite <- is_nan_abs in Na.
  destruct (written_cases _ Na) as [[-> _]|[-> _]];
    destruct (written_cases _ Hnet) as [[-> _]|[-> _]]; eauto.
Qed.

Lemma abs_not_negative x : (abs x <? 0) = false.
Proof.
  rewrite FloatAxioms.ltb_spec, FloatAxioms.abs_spec, Prim2SF_zero.
  unfold SFltb. now destruct (Prim2SF x) as [[]|[]| |[] m e].
Qed.

(** On a non-negative float, [or] does the same before and after [abs]. *)
Lemma py_or_abs x : (0 <=? x) = true -> py_or (Some (abs x)) 0 = py_or (Some x) 0.
Proof.
  rewrite FloatAxioms.leb_spec, Prim2SF_zero. intros Hx.
  destruct (Prim2SF x) as [s|[]| |[] m e] eqn:E; try discriminate Hx.
  - assert (Ex : truthy x = false).
    { unfold truthy. now rewrite FloatAxioms.eqb_spec, E, Prim2SF_zero. }
    assert (Ea : abs x = 0).
    { apply Prim2SF_inj. now rewrite FloatAxioms.abs_spec, E. }
    now rewrite Ea, (py_or_falsy x).
  - f_equal. f_equal. apply Prim2SF_inj. now rewrite FloatAxioms.abs_spec, E.
  - f_equal. f_equal. apply Prim2SF_inj. now rewrite FloatAxioms.abs_spec, E.
Qed.

(** The stored net value is the normalisation of the stored fields when the
    amount and the fee are typed without a sign. *)
Lemma record_keeps_invariant_on_magnitudes today u st fm st' amount fee :
  try_record today u st fm = Some st' ->
  parse_or (f_amount fm) 0 = Some amount ->
  parse_or (f_fee fm) 0 = Some fee ->
  (0 <=? amount) = true -> (0 <=? fee) = true ->
  exists e,
    entries st' = entries st ++ [e]
    /\ (e_net_cny e =? net_of_stored e) = true.
Proof.
  intros E Ha Hf Hamount Hfee.
  apply try_record_shape in E
    as (dt & amount' & fee' & rate & acct & e & _ & Ha' & Hf' & _ & _
        & Hes & _ & _ & _ & _ & Eam & Efe & Era & Edir & Enet).
  rewrite Ha in Ha'. rewrite Hf in Hf'.
  injection Ha' as <-. injection Hf' as <-.
  exists e. split; [exact Hes|].
  destruct (net_number _ _ _ _ (written_number _ _ Enet)) as (Na & Nf & Nr).
  assert (Estored : net_of_stored e
                    = compute_net_cny (direction_of fm) (Some amount) (Some fee)
                        (Some rate)).
  { unfold net_of_stored. rewrite Edir, Efe, Era, <- Eam.
    unfold compute_net_cny.
    rewrite !py_or_written by (rewrite ?is_nan_abs; assumption).
    now rewrite !py_or_abs. }
  rewrite Estored. now apply written_eqb.
Qed.

(** X1. A form in which the date, the amount, the fee or the rate does not
    parse records nothing: the store after the request is the store
    before. *)
Theorem malformed_form_changes_nothing today u st fm :
  f_date fm = Malformed \/ f_amount fm = Malformed
  \/ f_fee fm = Malformed \/ f_rate_to_cny fm = Malformed ->
  dashboard_post today u st fm = st.
Proof.
  intros H. unfold dashboard_post.
  destruct (try_record today u st fm) as [st'|] eqn:E; [|reflexivity].
  apply try_record_shape in E
    as (dt & amount & fee & rate & _ & _ & Hd & Ha & Hf & Hr & _).
  destruct H as [H|[H|[H|H]]]; rewrite H in *; discriminate.
Qed.

Lemma malformed_form_changes_nothing_witness :
  dashboard_post 739000 1 odd_balance_store
    {| f_date := Absent; f_direction := None; f_amount := Malformed;
       f_fee := Absent; f_currency := None; f_rate_to_cny := Absent;
       f_category := None; f_tags := None; f_note := None;
       f_account_id := Absent; f_new_account_name := "" |}
  = odd_balance_store.
Proof.
  apply malformed_form_changes_nothing. right. left. reflexivity.
Defined.

(** X2. A form is recorded when its date, amount, fee and rate parse, its
    account id, if one is used, is one the database takes, and its net value
    is a number (no NaN); a form whose account id is refused, or whose net
    value is a NaN, records nothing. A recorded form adds exactly one
    entry, after the entries there were: under a new id, for the current
    user, on the parsed date, with the direction Income when the form says
    so and Expense for every other text or none, with an amount and a fee
    that are not negative and are the magnitudes of the typed ones, with the
    typed rate, with the net value of the typed fields, and booked, if on
    an account, on an account of the current user; the accounts there were
    are kept. *)
Theorem parsed_form_records_one_entry today u st fm dt amount fee rate :
  parse_or (f_date fm) today = Some dt ->
  parse_or (f_amount fm) 0 = Some amount ->
  parse_or (f_fee fm) 0 = Some fee ->
  parse_or (f_rate_to_cny fm) 1 = Some rate ->
  let net := compute_net_cny (direction_of fm) (Some amount) (Some fee)
               (Some rate) in
  let st' := dashboard_post today u st fm in
  (account_id_ok fm -> is_nan net = false ->
   exists e,
     entries st' = entries st ++ [e]
     /\ (e_id e ∉ map e_id (entries st))
     /\ e_user_id e = u /\ e_date e = dt
     /\ (f_direction fm = Some income -> e_direction e = income)
     /\ (f_direction fm <> Some income -> e_direction e = expense)
     /\ (0 <=? e_amount e) = true /\ (e_amount e =? abs amount) = true
     /\ (exists fee', e_fee e = Some fee' /\ (0 <=? fee') = true
                      /\ (fee' =? abs fee) = true)
     /\ (exists rate', e_rate_to_cny e = Some rate' /\ (rate' =? rate) = true)
     /\ (e_net_cny e =? net) = true
     /\ (forall i, e_account_id e = Some i ->
           exists a, a ∈ accounts st' /\ a_id a = i /\ a_user_id a = u)
     /\ (exists new, accounts st' = accounts st ++ new))
  /\ (~ account_id_ok fm \/ is_nan net = true -> st' = st).
Proof.
  intros Hd Ha Hf Hr net st'. subst st'. unfold dashboard_post. split.
  - intros Hok Hnet.
    destruct (try_record_succeeds today u st fm dt amount fee rate
                Hd Ha Hf Hr Hok Hnet) as [st' E].
    rewrite E.
    apply try_record_shape in E
      as (dt' & amount' & fee' & rate' & acct & e & Hd' & Ha' & Hf' & Hr' & Hpick
          & Hes & Hid & Hu & Hdt & Hacct & Ham & Hfe & Hra & Hdir & Hne).
    rewrite Hd in Hd'. rewrite Ha in Ha'. rewrite Hf in Hf'. rewrite Hr in Hr'.
    injection Hd' as <-. injection Ha' as <-. injection Hf' as <-.
    injection Hr' as <-.
    apply pick_account_spec in Hpick as [Hgrow Hown].
    destruct (net_number _ _ _ _ Hnet) as (Na & Nf & Nr).
    exists e. split; [exact Hes|]. split; [rewrite Hid; apply next_id_fresh|].
    do 2 (split; [assumption|]).
    split; [intros Ei; rewrite Hdir; unfold direction_of; now rewrite Ei|].
    split.
    { intros Ei. rewrite Hdir. unfold direction_of.
      destruct (f_direction fm) as [d|]; [|reflexivity].
      destruct (String.eqb_spec d income) as [->|_]; [now destruct Ei|reflexivity]. }
    split.
    { apply (written_not_negative _ _ Ham). now apply abs_number_not_negative. }
    split; [now apply written_eqb|].
    split.
    { assert (Nf' : is_nan (abs fee) = false) by now rewrite is_nan_abs.
      destruct (written_cases _ Nf') as [[E _]|[E _]];
        rewrite Hfe, E; eexists; (split; [reflexivity|]);
        (split; [|apply written_eqb; exact E]).
      - now apply abs_number_not_negative.
      - reflexivity. }
    split.
    { destruct (written_cases _ Nr) as [[E _]|[E _]];
        rewrite Hra, E; eexists; (split; [reflexivity|]);
        apply written_eqb; exact E. }
    split; [now apply written_eqb|]. split.
    + intros i Hi. rewrite Hacct in Hi. destruct acct as [a|]; [|discriminate].
      injection Hi as <-. destruct (Hown a eq_refl). now exists a.
    + destruct Hgrow as [->|(a & -> & _)]; [exists []; now rewrite app_nil_r|].
      now exists [a].
  - intros H.
    destruct (try_record today u st fm) as [st'|] eqn:E; [|reflexivity].
    apply try_record_shape in E
      as (dt' & amount' & fee' & rate' & acct & e & _ & Ha' & Hf' & Hr' & Hpick
          & _ & _ & _ & _ & _ & _ & _ & _ & _ & Hne).
    rewrite Ha in Ha'. rewrite Hf in Hf'. rewrite Hr in Hr'.
    injection Ha' as <-. injection Hf' as <-. injection Hr' as <-.
    destruct H as [H|H].
    + now rewrite (pick_account_refused _ _ _ H) in Hpick.
    + apply written_number in Hne. fold net in Hne. congruence.
Qed.

Lemma parsed_form_records_one_entry_witness :
  exists e,
    entries (dashboard_post 739000 1 empty_store negative_income_form) = [e]
    /\ (0 <=? e_amount e) = true.
Proof.
  destruct (proj1 (parsed_form_records_one_entry 739000 1 empty_store
                     negative_income_form 739000 (-100) 0 1
                     eq_refl eq_refl eq_refl eq_refl)
              (or_intror (or_introl eq_refl)) eq_refl)
    as (e & Hes & _ & _ & _ & _ & _ & Ham & _).
  exists e. split; [exact Hes|exact Ham].
Defined.

(** X3. When the form is recorded and the amount and the fee are typed
    without a sign (both are [>= 0]), the net value stored with the entry
    equals the normalisation of the fields stored with it. *)
Theorem unsigned_input_keeps_net_invariant today u st fm dt amount fee rate :
  parse_or (f_date fm) today = Some dt ->
  parse_or (f_amount fm) 0 = Some amount ->
  parse_or (f_fee fm) 0 = Some fee ->
  parse_or (f_rate_to_cny fm) 1 = Some rate ->
  account_id_ok fm ->
  is_nan (compute_net_cny (direction_of fm) (Some amount) (Some fee) (Some rate))
  = false ->
  (0 <=? amount) = true -> (0 <=? fee) = true ->
  exists e,
    entries (dashboard_post today u st fm) = entries st ++ [e]
    /\ (e_net_cny e =? net_of_stored e) = true.
Proof.
  intros Hd Ha Hf Hr Hok Hnet Hamount Hfee.
  destruct (try_record_succeeds today u st fm dt amount fee rate
              Hd Ha Hf Hr Hok Hnet) as [st' E].
  unfold dashboard_post. rewrite E.
  exact (record_keeps_invariant_on_magnitudes today u st fm st' amount fee
           E Ha Hf Hamount Hfee).
Qed.

Lemma unsigned_input_keeps_net_invariant_witness :
  exists e,
    entries (dashboard_post 739000 1 empty_store usd_income_form) = [] ++ [e]
    /\ (e_net_cny e =? net_of_stored e) = true.
Proof.
  exact (unsigned_input_keeps_net_invariant 739000 1 empty_store usd_income_form
           739000 200 2 7 eq_refl eq_refl eq_refl eq_refl
           (or_intror (or_introl eq_refl)) eq_refl eq_refl eq_refl).
Defined.

End Requests.

(** * The stores the requests build *)

Section WellFormed.

Local Open Scope float_scope.

Lemma NoDup_map_filter {A} (f : A -> Z) (p : A -> bool) (l : list A) :
  NoDup (map f l) -> NoDup (map f (filter (fun x => p x) l)).
Proof.
  induction l as [|x l IH]; [intros _; constructor|].
  cbn [map]. rewrite NoDup_cons. intros [Hx Hl].
  rewrite filter_cons. destruct (decide (p x)); [|now apply IH].
  cbn [map]. apply NoDup_cons. split; [|now apply IH].
  intros Hin. apply Hx. apply elem_of_map in Hin as (y & Ey & Hy).
  apply elem_of_filter_bool in Hy as [_ Hy]. apply elem_of_map. now exists y.
Qed.

Lemma NoDup_map_eq {A} (f : A -> Z) (l : list A) (x y : A) :
  NoDup (map f l) -> x ∈ l -> y ∈ l -> f x = f y -> x = y.
Proof.
  induction l as [|z l IH]; [intros _ H; now apply elem_of_nil in H|].
  cbn [map]. rewrite NoDup_cons, !elem_of_cons. intros [Hz Hl] [->|Hx] [->|Hy] E.
  - reflexivity.
  - destruct Hz. apply elem_of_map. exists y. now split.
  - destruct Hz. apply elem_of_map. exists x. now split.
  - now apply IH.
Qed.

Lemma wf_dashboard_post today u st fm :
  wf_store st -> wf_store (dashboard_post today u st fm).
Proof.
  intros (Ha & He & Hown). unfold dashboard_post.
  destruct (try_record today u st fm) as [st'|] eqn:E; [|now repeat split].
  apply try_record_shape in E
    as (_ & _ & _ & _ & acct & e & _ & _ & _ & _ & Hpick & Hes & Hid & Hu & _
        & Hacct & _).
  apply pick_account_spec in Hpick as [Hgrow Hmine].
  assert (Hsub : forall a, a ∈ accounts st -> a ∈ accounts st').
  { intros a Hin. destruct Hgrow as [->|(b & -> & _)]; [exact Hin|].
    apply elem_of_app. now left. }
  repeat split.
  - destruct Hgrow as [->|(b & -> & Hb & _)]; [exact Ha|].
    apply NoDup_map_snoc; [exact Ha|]. rewrite Hb. apply next_id_fresh.
  - rewrite Hes. apply NoDup_map_snoc; [exact He|].
    rewrite Hid. apply next_id_fresh.
  - intros e' i. rewrite Hes, elem_of_app, list_elem_of_singleton.
    intros [Hin| ->] Hi.
    + destruct (Hown e' i Hin Hi) as (a & Hain & Hai & Hau).
      exists a. auto.
    + rewrite Hacct in Hi. destruct acct as [a|]; [|discriminate].
      injection Hi as <-. destruct (Hmine a eq_refl) as [Hin Hau].
      exists a. repeat split; [exact Hin|now rewrite Hu].
Qed.

(** What the account form does. *)
Lemma accounts_post_spec u st name bal st' :
  accounts_post u st name bal = Some st' ->
  exists b, parse_or bal 0 = Some b
    /\ entries st' = entries st
    /\ ((name = EmptyString /\ accounts st' = accounts st)
        \/ (name <> EmptyString
            /\ accounts st'
               = accounts st
                 ++ [ {| a_id := next_id (map a_id (accounts st));
                         a_user_id := u; a_name := name;
                         a_initial_balance := written b |} ])).
Proof.
  unfold accounts_post. destruct (parse_or bal 0) as [b|]; [|discriminate].
  intros H. exists b. split; [reflexivity|].
  destruct name as [|c name]; injection H as <-; (split; [reflexivity|]).
  - now left.
  - right. now split.
Qed.

Lemma wf_accounts_post u st name bal st' :
  wf_store st -> accounts_post u st name bal = Some st' -> wf_store st'.
Proof.
  intros (Ha & He & Hown) H.
  apply accounts_post_spec in H as (b & _ & Hes & [[_ Hacc]|[_ Hacc]]);
    unfold wf_store; rewrite Hes, Hacc.
  - now repeat split.
  - repeat split; [|exact He|].
    + apply NoDup_map_snoc; [exact Ha|]. apply next_id_fresh.
    + intros e i Hin Hi. destruct (Hown e i Hin Hi) as (a & Hain & Hai & Hau).
      exists a. rewrite elem_of_app. auto.
Qed.

(** What deleting does. *)
Lemma delete_entry_spec u id st st' :
  delete_entry u id st = Some st' ->
  accounts st' = accounts st
  /\ (exists e, e ∈ entries st /\ e_id e = id /\ e_user_id e = u)
  /\ entries st' = filter (fun e => negb (e_id e =? id)%Z) (entries st).
Proof.
  unfold delete_entry.
  destruct (head _) as [e|] eqn:E; [|discriminate].
  apply head_Some_elem_of, elem_of_filter_bool in E as [Hp Hin].
  apply andb_prop in Hp as [Hid Hu].
  apply Z.eqb_eq in Hid, Hu. intros [= <-]. cbn [accounts entries].
  split; [reflexivity|]. split; [now exists e|]. now rewrite Hid.
Qed.

Lemma wf_delete_entry u id st st' :
  wf_store st -> delete_entry u id st = Some st' -> wf_store st'.
Proof.
  intros (Ha & He & Hown) H.
  apply delete_entry_spec in H as (Hacc & _ & Hes).
  unfold wf_store. rewrite Hacc, Hes. repeat split; [exact Ha| |].
  - now apply (NoDup_map_filter e_id (fun e => negb (e_id e =? id)%Z)).
  - intros e i Hin Hi. apply elem_of_filter_bool in Hin as [_ Hin]. eauto.
Qed.

(** X4. The three requests that write (recording an entry, creating an
    account, deleting an entry) keep the store well formed: account ids and
    entry ids stay keys, and every entry booked on an account stays booked
    on an account of its own user. The empty store is well formed. *)
Theorem requests_keep_store_well_formed (u : Z) (st : Store) :
  wf_store st ->
  (forall today fm, wf_store (dashboard_post today u st fm))
  /\ (forall name bal st', accounts_post u st name bal = Some st' -> wf_store st')
  /\ (forall id st', delete_entry u id st = Some st' -> wf_store st')
  /\ wf_store empty_store.
Proof.
  intros Hwf. split; [|split; [|split]].
  - intros today fm. now apply wf_dashboard_post.
  - intros name bal st'. now apply wf_accounts_post.
  - intros id st'. now apply wf_delete_entry.
  - repeat split; cbn; try constructor.
    intros e i H. now apply elem_of_nil in H.
Qed.

Lemma wf_store_empty : wf_store empty_store.
Proof.
  repeat split; cbn; try constructor.
  intros e i H. now apply elem_of_nil in H.
Qed.

Lemma requests_keep_store_well_formed_witness :
  wf_store (dashboard_post 739000 1 empty_store usd_income_form).
Proof.
  exact (proj1 (requests_keep_store_well_formed 1 empty_store wf_store_empty)
           739000%Z usd_income_form).
Defined.

(** X5. In a well-formed store an entry that references an account belongs
    to the user who owns that account: the ownership the balances of the
    accounts view rely on. *)
Theorem entries_are_booked_on_own_accounts (st : Store) (a : Account) (e : Entry) :
  wf_store st -> a ∈ accounts st -> e ∈ entries st ->
  e_account_id e = Some (a_id a) ->
  e_user_id e = a_user_id a
  /\ joined (a_user_id a) a (entries st) = referencing a (entries st).
Proof.
  intros (Ha & _ & Hown) Hin He Hi.
  assert (Hall : forall e', e' ∈ entries st ->
            e_account_id e' = Some (a_id a) -> e_user_id e' = a_user_id a).
  { intros e' He' Hi'. destruct (Hown e' _ He' Hi') as (a' & Hin' & Eid & Eu).
    now rewrite (NoDup_map_eq a_id (accounts st) a a' Ha Hin Hin' (eq_sym Eid)). }
  split; [now apply Hall|]. now apply joined_referencing.
Qed.

Lemma entries_are_booked_on_own_accounts_witness :
  e_user_id (sample_entry 1 739000 None (Some 1%Z) 3) = 1%Z
  /\ joined 1 cash_account (entries booked_store)
     = referencing cash_account (entries booked_store).
Proof.
  refine (entries_are_booked_on_own_accounts booked_store cash_account
            (sample_entry 1 739000 None (Some 1%Z) 3) _
            (list_elem_of_here _ _) (list_elem_of_here _ _) eq_refl).
  repeat split; cbn.
  - apply NoDup_singleton.
  - apply NoDup_singleton.
  - intros e i He Hi. apply list_elem_of_singleton in He. subst e.
    injection Hi as <-. exists cash_account.
    split; [apply list_elem_of_here|]. now split.
Defined.

End WellFormed.

(** * Accounts created and entries deleted *)

Section AccountsAndDeletion.

Local Open Scope float_scope.

Lemma filter_bool_nil {A} (p : A -> bool) (l : list A) :
  (forall x, x ∈ l -> p x = false) -> filter (fun x => p x) l = [].
Proof.
  induction l as [|x l IH]; [reflexivity|]. intros H.
  rewrite filter_cons_False.
  - apply IH. intros y Hy. apply H. now apply list_elem_of_further.
  - rewrite (H x (list_elem_of_here _ _)). exact id.
Qed.

Lemma head_filter_None {A} (p : A -> bool) (l : list A) :
  head (filter (fun x => p x) l) = None <-> forall x, x ∈ l -> p x = false.
Proof.
  split.
  - intros H x Hx. destruct (p x) eqn:E; [|reflexivity].
    assert (Hin : x ∈ filter (fun x => p x) l) by now apply elem_of_filter_bool.
    destruct (filter (fun x => p x) l); [now apply elem_of_nil in Hin|discriminate].
  - intros H. now rewrite filter_bool_nil.
Qed.

(** X6. In a well-formed store, the account form with a name and a balance
    that parses adds one account of the user under a new id and leaves the
    entries alone; the accounts view then lists the new account with no
    profit or loss and with one value as its initial and as its current
    balance: the typed balance rounded to 2 decimals when it is a number,
    and 0.0 when it is a NaN, which is stored as a missing balance. *)
Theorem new_account_is_listed_at_its_balance u st name (bal : field float) b :
  wf_store st -> name <> EmptyString -> parse_or bal 0 = Some b ->
  exists st' a info,
    accounts_post u st name bal = Some st'
    /\ accounts st' = accounts st ++ [a] /\ entries st' = entries st
    /\ (a_id a ∉ map a_id (accounts st))
    /\ a_user_id a = u /\ a_name a = name
    /\ info ∈ acct_info u st'
    /\ i_id info = a_id a /\ i_name info = name
    /\ i_pl info = 0
    /\ i_current_balance info = i_initial_balance info
    /\ (is_nan b = false ->
        (exists b', a_initial_balance a = Some b' /\ (b' =? b) = true)
        /\ i_initial_balance info = py_round2 (py_or (Some b) 0))
    /\ (is_nan b = true ->
        a_initial_balance a = None /\ i_initial_balance info = 0).
Proof.
  intros (Ha & He & Hown) Hname Hb.
  destruct (accounts_post u st name bal) as [st'|] eqn:E.
  2:{ unfold accounts_post in E. rewrite Hb in E. now destruct name. }
  destruct (accounts_post_spec u st name bal st' E)
    as (b' & Hb' & Hes & [[Hn _]|[_ Hacc]]); [contradiction|].
  rewrite Hb in Hb'. injection Hb' as <-.
  set (a := {| a_id := next_id (map a_id (accounts st)); a_user_id := u;
               a_name := name; a_initial_balance := written b |}) in *.
  assert (Hjoin : joined u a (entries st') = []).
  { rewrite Hes. unfold joined. apply filter_bool_nil. intros e Hin.
    apply andb_false_intro1, bool_decide_eq_false_2. intros Hi.
    destruct (Hown e _ Hin Hi) as (a' & Hin' & Eid & _).
    apply (next_id_fresh (map a_id (accounts st))).
    apply elem_of_map. exists a'. now split. }
  exists st', a, (acct_info_of (a, coalesce (sql_sum (map e_net_cny
                                   (joined u a (entries st')))) 0)).
  split; [reflexivity|]. do 2 (split; [assumption|]).
  split; [apply next_id_fresh|]. do 2 (split; [reflexivity|]).
  split.
  { unfold acct_info, account_rows. rewrite map_map.
    apply elem_of_map. exists a. split; [reflexivity|].
    apply elem_of_order_by_name, elem_of_filter_bool.
    split; [cbn; lia|]. rewrite Hacc. apply elem_of_app. right.
    apply list_elem_of_here. }
  rewrite Hjoin. cbn [map sql_sum coalesce default acct_info_of i_id i_name i_pl
                      i_initial_balance i_current_balance a_id a_name
                      a_initial_balance a].
  do 3 (split; [reflexivity|]).
  change (py_or (Some 0) 0) with 0. rewrite add_py_or_zero.
  split; [reflexivity|]. split.
  - intros N. rewrite (py_or_written b 0 N). split; [|reflexivity].
    destruct (written b) as [b'|] eqn:Eb.
    + exists b'. split; [reflexivity|]. now apply written_eqb.
    + destruct (written_cases b N) as [[E' _]|[E' _]]; congruence.
  - intros N. rewrite (written_nan b N). now split.
Qed.

Lemma new_account_is_listed_at_its_balance_witness :
  exists st' info,
    accounts_post 1 empty_store "bank" (Parsed 2.005) = Some st'
    /\ info ∈ acct_info 1 st'
    /\ i_current_balance info = py_round2 (py_or (Some 2.005) 0).
Proof.
  destruct (new_account_is_listed_at_its_balance 1 empty_store "bank"
              (Parsed 2.005) 2.005 wf_store_empty)
    as (st' & a & info & H1 & _ & _ & _ & _ & _ & H2 & _ & _ & _ & H3 & H4 & _);
    [discriminate|reflexivity|].
  exists st', info. split; [exact H1|]. split; [exact H2|].
  rewrite H3. exact (proj2 (H4 eq_refl)).
Defined.





End AccountsAndDeletion.

(** * What the views read *)

Section Views.

Local Open Scope float_scope.

Lemma filter_filter_implied {A} (p q : A -> bool) (l : list A) :
  (forall x, p x = true -> q x = true) ->
  filter (fun x => p x) (filter (fun x => q x) l) = filter (fun x => p x) l.
Proof.
  intros Hpq. induction l as [|x l IH]; [reflexivity|].
  rewrite (filter_cons (fun x => q x)), (filter_cons (fun x => p x) x l).
  destruct (decide (q x)) as [Hq|Hq].
  - rewrite filter_cons, IH. reflexivity.
  - rewrite IH. destruct (decide (p x)) as [Hp|Hp]; [|reflexivity].
    destruct Hq. apply Is_true_true, Hpq, Is_true_true, Hp.
Qed.

Lemma user_first {A} (user : A -> Z) (u : Z) (p : A -> bool) (l : list A) :
  filter (fun x => (user x =? u)%Z && p x) (filter (fun x => (user x =? u)%Z) l)
  = filter (fun x => (user x =? u)%Z && p x) l.
Proof.
  apply (filter_filter_implied (fun x => (user x =? u)%Z && p x)
           (fun x => (user x =? u)%Z)).
  intros x H. now apply andb_prop in H as [H _].
Qed.

Lemma sum_range_own u es start_dt end_dt :
  sum_range u (filter (fun e => (e_user_id e =? u)%Z) es) start_dt end_dt
  = sum_range u es start_dt end_dt.
Proof.
  unfold sum_range.
  rewrite (filter_filter_implied
             (fun e => (e_user_id e =? u)%Z && (start_dt <=? e_date e)%Z
                       && (e_date e <=? end_dt)%Z)
             (fun e => (e_user_id e =? u)%Z)); [reflexivity|].
  intros e H. apply andb_prop in H as [H _]. now apply andb_prop in H as [H _].
Qed.

Lemma rows_30_own u es start_30 today :
  rows_30 u (filter (fun e => (e_user_id e =? u)%Z) es) start_30 today
  = rows_30 u es start_30 today.
Proof.
  unfold rows_30.
  assert (E : filter (fun e => (e_user_id e =? u)%Z && (start_30 <=? e_date e)%Z
                               && (e_date e <=? today)%Z)
                (filter (fun e => (e_user_id e =? u)%Z) es)
              = filter (fun e => (e_user_id e =? u)%Z && (start_30 <=? e_date e)%Z
                                 && (e_date e <=? today)%Z) es).
  { apply (filter_filter_implied
             (fun e => (e_user_id e =? u)%Z && (start_30 <=? e_date e)%Z
                       && (e_date e <=? today)%Z)
             (fun e => (e_user_id e =? u)%Z)).
    intros e H. apply andb_prop in H as [H _]. now apply andb_prop in H as [H _]. }
  now rewrite E.
Qed.

Lemma month_rows_own u es since :
  month_rows u (filter (fun e => (e_user_id e =? u)%Z) es) since
  = month_rows u es since.
Proof.
  unfold month_rows.
  now rewrite (user_first e_user_id u (fun e => (since <=? e_date e)%Z) es).
Qed.

Lemma in_category_own u c es :
  in_category u c (filter (fun e => (e_user_id e =? u)%Z) es) = in_category u c es.
Proof.
  unfold in_category.
  apply (user_first e_user_id u (fun e => bool_decide (e_category e = c)) es).
Qed.

Lemma cat_rows_own order u es :
  cat_rows order u (filter (fun e => (e_user_id e =? u)%Z) es)
  = cat_rows order u es.
Proof.
  unfold cat_rows.
  rewrite (filter_filter_implied (fun e => (e_user_id e =? u)%Z)
             (fun e => (e_user_id e =? u)%Z) es) by auto.
  apply map_ext. intros c. now rewrite in_category_own.
Qed.

Lemma joined_own u a es :
  joined u a (filter (fun e => (e_user_id e =? u)%Z) es) = joined u a es.
Proof.
  unfold joined.
  apply (filter_filter_implied
           (fun e => bool_decide (e_account_id e = Some (a_id a))
                     && (e_user_id e =? u)%Z)
           (fun e => (e_user_id e =? u)%Z)).
  intros e H. now apply andb_prop in H as [_ H].
Qed.

Lemma dashboard_get_own order today u st :
  dashboard_get order today u (own u st) = dashboard_get order today u st.
Proof.
  unfold dashboard_get, own. cbn [entries].
  now rewrite !sum_range_own, rows_30_own, month_rows_own, cat_rows_own.
Qed.

Lemma acct_info_own u st : acct_info u (own u st) = acct_info u st.
Proof.
  unfold acct_info, account_rows, own. cbn [entries accounts].
  rewrite (filter_filter_implied (fun a => (a_user_id a =? u)%Z)
             (fun a => (a_user_id a =? u)%Z) (accounts st)) by auto.
  f_equal. apply map_ext. intros a. now rewrite joined_own.
Qed.

Lemma export_entries_own u start_date end_date es :
  export_entries u start_date end_date (filter (fun e => (e_user_id e =? u)%Z) es)
  = export_entries u start_date end_date es.
Proof.
  unfold export_entries.
  now rewrite (filter_filter_implied (fun e => (e_user_id e =? u)%Z)
                 (fun e => (e_user_id e =? u)%Z) es) by auto.
Qed.

(** X9. What a user is shown depends on the rows of that user alone: two
    stores that hold the same accounts and entries of the user give the same
    dashboard figures, the same account balances and the same exported
    entries, whatever they hold of other users. *)
Theorem views_show_own_rows_only
    (group_order : list (option string) -> list (option string))
    today u st1 st2 start_date end_date :
  own u st1 = own u st2 ->
  dashboard_get group_order today u st1 = dashboard_get group_order today u st2
  /\ acct_info u st1 = acct_info u st2
  /\ export_entries u start_date end_date (entries st1)
     = export_entries u start_date end_date (entries st2).
Proof.
  intros E. split; [|split].
  - now rewrite <- (dashboard_get_own group_order today u st1), E,
      dashboard_get_own.
  - now rewrite <- (acct_info_own u st1), E, acct_info_own.
  - rewrite <- (export_entries_own u _ _ (entries st1)),
      <- (export_entries_own u _ _ (entries st2)).
    change (filter _ (entries st1)) with (entries (own u st1)).
    now rewrite E.
Qed.

Lemma views_show_own_rows_only_witness :
  acct_info 2 booked_store = acct_info 2 empty_store.
Proof.
  exact (proj1 (proj2 (views_show_own_rows_only (fun l => l) 739000 2
                         booked_store empty_store Absent Absent eq_refl))).
Defined.

(** X10. A range that ends before it starts sums to 0.0, whatever the
    entries. *)
Theorem inverted_range_sums_to_zero u es (start_dt end_dt : Z) :
  (end_dt < start_dt)%Z -> sum_range u es start_dt end_dt = 0.
Proof.
  intros H. unfold sum_range. rewrite filter_bool_nil; [reflexivity|].
  intros e _. destruct (e_user_id e =? u)%Z; [cbn|reflexivity].
  apply andb_false_iff. lia.
Qed.

Lemma inverted_range_sums_to_zero_witness :
  sum_range 1 category_x 739002 739000 = 0.
Proof. apply inverted_range_sums_to_zero. lia. Defined.

End Views.

(** * From the entries to the 30-day series *)

Section DailyMap.

Local Open Scope float_scope.

Lemma daily_map_fold (g : Z -> option float) (keys : list Z) (m : gmap Z float) d :
  fold_left (fun m r => match r.2 with Some v => <[r.1 := v]> m | None => m end)
            (map (fun k => (k, g k)) keys) m !! d
  = if decide (d ∈ keys)
    then match g d with Some v => Some v | None => m !! d end
    else m !! d.
Proof.
  revert m. induction keys as [|k keys IH]; intros m; [reflexivity|].
  cbn [map fold_left fst snd]. rewrite IH.
  assert (Hstep : match g k with Some v => <[k := v]> m | None => m end !! d
                  = if decide (d = k)
                    then match g d with Some v => Some v | None => m !! d end
                    else m !! d).
  { destruct (decide (d = k)) as [->|Hne].
    - destruct (g k); [apply lookup_insert_eq|reflexivity].
    - destruct (g k); [now apply lookup_insert_ne|reflexivity]. }
  destruct (decide (d ∈ keys)) as [Hin|Hin].
  - rewrite decide_True by (apply elem_of_cons; now right).
    destruct (g d) eqn:Eg; [reflexivity|]. rewrite Hstep.
    now destruct (decide (d = k)).
  - rewrite Hstep. destruct (decide (d = k)) as [->|Hne].
    + rewrite decide_True by apply list_elem_of_here. reflexivity.
    + rewrite decide_False; [reflexivity|].
      rewrite elem_of_cons. tauto.
Qed.

Lemma daily_map_lookup u es (start_30 today d : Z) :
  daily_map_of (rows_30 u es start_30 today) !! d
  = sql_sum (map e_net_cny (on_day u start_30 today d es)).
Proof.
  unfold daily_map_of, rows_30, on_day.
  set (sel := filter _ es).
  rewrite (daily_map_fold
             (fun k => sql_sum (map e_net_cny
                         (filter (fun e => (e_date e =? k)%Z) sel)))).
  destruct (decide _) as [Hin|Hin]; [now destruct (sql_sum _)|].
  rewrite filter_bool_nil; [reflexivity|].
  intros e He. apply Z.eqb_neq. intros <-. apply Hin.
  apply elem_of_distinct_asc; [apply Z.compare_eq|].
  apply elem_of_map. now exists e.
Qed.


Lemma running_total_ext (f g : nat -> float) n :
  (forall i, f i = g i) -> running_total f n = running_total g n.
Proof.
  intros H. induction n as [|n IH]; [reflexivity|]. cbn. now rewrite IH, H.
Qed.


End DailyMap.


(** * The database address *)

Section DatabaseUrl.

Local Open Scope string_scope.

Lemma prefix_split (p s : string) :
  String.prefix p s = true -> s = p +:+ drop_chars (String.length p) s.
Proof.
  revert s. induction p as [|a p IH]; intros s; [reflexivity|].
  destruct s as [|b s]; [discriminate|]. cbn.
  destruct (ascii_dec a b) as [->|]; [|discriminate].
  intros H.
  change (String b s = String b (p +:+ drop_chars (String.length p) s)).
  f_equal. now apply IH.
Qed.

Lemma drop_chars_app (p s : string) : drop_chars (String.length p) (p +:+ s) = s.
Proof. induction p as [|a p IH]; [now destruct s|exact IH]. Qed.

Lemma replace_first_unfold (old new s : string) :
  replace_first old new s
  = if String.prefix old s then new +:+ drop_chars (String.length old) s
    else match s with
         | EmptyString => EmptyString
         | String c s' => String c (replace_first old new s')
         end.
Proof. now destruct s. Qed.

Lemma prefix_app (p s : string) : String.prefix p (p +:+ s) = true.
Proof.
  induction p as [|a p IH]; [now destruct s|].
  change (String a p +:+ s) with (String a (p +:+ s)). cbn.
  now destruct (ascii_dec a a).
Qed.

Lemma normalize_postgres rest :
  normalize_db_url ("postgres://" +:+ rest) = "postgresql+psycopg://" +:+ rest.
Proof.
  unfold normalize_db_url.
  rewrite replace_first_unfold, !prefix_app. now rewrite drop_chars_app.
Qed.

Lemma normalize_postgresql rest :
  normalize_db_url ("postgresql://" +:+ rest) = "postgresql+psycopg://" +:+ rest.
Proof.
  unfold normalize_db_url.
  change (String.prefix "postgres://" ("postgresql://" +:+ rest)) with false.
  cbv iota.
  rewrite replace_first_unfold, !prefix_app. now rewrite drop_chars_app.
Qed.

Lemma normalize_other url :
  String.prefix "postgres://" url = false ->
  String.prefix "postgresql://" url = false ->
  normalize_db_url url = url.
Proof. intros H1 H2. unfold normalize_db_url. now rewrite H1, H2. Qed.

(** X13. The rewriting of the database address puts the psycopg scheme in
    place of a leading [postgres://] or [postgresql://] and keeps what
    follows it; any other address is left as it is. Its result never starts
    with one of the two schemes, and rewriting it again changes nothing. *)
Theorem db_url_is_normalized (db_url : string) :
  let r := normalize_db_url db_url in
  String.prefix "postgres://" r = false
  /\ String.prefix "postgresql://" r = false
  /\ normalize_db_url r = r
  /\ (forall rest, db_url = "postgres://" +:+ rest ->
        r = "postgresql+psycopg://" +:+ rest)
  /\ (forall rest, db_url = "postgresql://" +:+ rest ->
        r = "postgresql+psycopg://" +:+ rest)
  /\ (String.prefix "postgres://" db_url = false ->
      String.prefix "postgresql://" db_url = false -> r = db_url).
Proof.
  intros r.
  assert (Hcases : (exists rest, r = "postgresql+psycopg://" +:+ rest)
                   \/ (String.prefix "postgres://" db_url = false
                       /\ String.prefix "postgresql://" db_url = false
                       /\ r = db_url)).
  { subst r. destruct (String.prefix "postgres://" db_url) eqn:E1.
    - left. apply prefix_split in E1. rewrite E1. eexists.
      apply normalize_postgres.
    - destruct (String.prefix "postgresql://" db_url) eqn:E2.
      + left. apply prefix_split in E2. rewrite E2. eexists.
        apply normalize_postgresql.
      + right. now rewrite normalize_other. }
  assert (Hfix : String.prefix "postgres://" r = false
                 /\ String.prefix "postgresql://" r = false).
  { destruct Hcases as [[rest ->]|(H1 & H2 & ->)]; [now split|now split]. }
  destruct Hfix as [F1 F2].
  split; [exact F1|]. split; [exact F2|].
  split; [now apply normalize_other|].
  split; [intros rest ->; apply normalize_postgres|].
  split; [intros rest ->; apply normalize_postgresql|].
  intros H1 H2. now apply normalize_other.
Qed.

End DatabaseUrl.

(** * The exported rows *)

Section Sorting.

Context {A : Type} (cmp : A -> A -> comparison) (le : A -> A -> Prop).
Hypothesis cmp_le : forall a b, cmp a b <> Gt -> le a b.
Hypothesis cmp_gt : forall a b, cmp a b = Gt -> le b a.
Hypothesis le_trans : forall a b c, le a b -> le b c -> le a c.

Lemma insert_sorted_perm a l : insert_sorted cmp a l ≡ₚ a :: l.
Proof.
  induction l as [|b l IH]; [reflexivity|]. cbn.
  destruct (cmp a b); try reflexivity.
  rewrite IH. apply Permutation_swap.
Qed.

Lemma sort_by_perm l : sort_by cmp l ≡ₚ l.
Proof.
  induction l as [|a l IH]; [reflexivity|]. cbn.
  now rewrite insert_sorted_perm, IH.
Qed.

Lemma insert_sorted_sorted a l :
  StronglySorted le l -> StronglySorted le (insert_sorted cmp a l).
Proof.
  induction 1 as [|b l Hs IH Hall]; cbn; [repeat constructor|].
  destruct (cmp a b) eqn:E.
  - assert (Hab : le a b) by (apply cmp_le; congruence).
    constructor; [now constructor|]. constructor; [exact Hab|].
    eapply Forall_impl; [exact Hall|]. intros c Hc. eauto.
  - assert (Hab : le a b) by (apply cmp_le; congruence).
    constructor; [now constructor|]. constructor; [exact Hab|].
    eapply Forall_impl; [exact Hall|]. intros c Hc. eauto.
  - constructor; [exact IH|].
    rewrite insert_sorted_perm. constructor; [now apply cmp_gt|exact Hall].
Qed.

Lemma sort_by_sorted l : StronglySorted le (sort_by cmp l).
Proof.
  induction l as [|a l IH]; cbn; [constructor|]. now apply insert_sorted_sorted.
Qed.

End Sorting.

Lemma filter_filter_and {A} (p q : A -> bool) (l : list A) :
  filter (fun x => p x) (filter (fun x => q x) l)
  = filter (fun x => q x && p x) l.
Proof.
  rewrite list_filter_filter. apply list_filter_iff.
  intros x. rewrite andb_True. tauto.
Qed.

Lemma export_entries_selects u start_date end_date es rows :
  export_entries u start_date end_date es = Some rows ->
  rows = sort_by by_date_then_id
           (filter (fun e => in_export u start_date end_date e) es).
Proof.
  unfold export_entries, in_export.
  destruct start_date as [|d1|], end_date as [|d2|]; try discriminate;
    intros [= <-]; f_equal; rewrite ?filter_filter_and;
    apply list_filter_iff; intros e;
    now rewrite ?andb_true_r, ?andb_assoc.
Qed.

(** X14. The export answers with an error exactly when a bound does not
    parse. Otherwise every entry of the user that is dated within the given
    bounds (inclusive; a missing bound does not restrict) is exported once
    and no other entry is, and the rows are in the order of their dates,
    those of a day in the order of their ids. *)
Theorem export_is_selected_and_ordered u start_date end_date es :
  (export_entries u start_date end_date es = None
   <-> start_date = Malformed \/ end_date = Malformed)
  /\ forall rows, export_entries u start_date end_date es = Some rows ->
       rows ≡ₚ filter (fun e => in_export u start_date end_date e) es
       /\ StronglySorted date_id_le rows
       /\ (forall e, e ∈ rows <->
             e ∈ es /\ e_user_id e = u
             /\ (forall d, start_date = Parsed d -> d <= e_date e)
             /\ (forall d, end_date = Parsed d -> e_date e <= d)).
Proof.
  split.
  - unfold export_entries.
    destruct start_date as [|d1|], end_date as [|d2|]; split;
      try discriminate; try (intros [H|H]; discriminate H); auto.
  - intros rows H. apply export_entries_selects in H. subst rows.
    split; [apply sort_by_perm|]. split.
    + apply sort_by_sorted; unfold by_date_then_id, date_id_le.
      * intros a b. destruct (Z.compare_spec (e_date a) (e_date b));
          [destruct (Z.compare_spec (e_id a) (e_id b))|..]; intros ?;
          try congruence; lia.
      * intros a b. destruct (Z.compare_spec (e_date a) (e_date b));
          [destruct (Z.compare_spec (e_id a) (e_id b))|..]; intros ?;
          try congruence; lia.
      * intros a b c. lia.
    + intros e. rewrite sort_by_perm, elem_of_filter_bool. unfold in_export.
      rewrite !andb_true_iff, Z.eqb_eq. split.
      * intros [[[Hu H1] H2] He]. repeat split; try assumption.
        -- intros d ->. lia.
        -- intros d ->. lia.
      * intros (He & Hu & H1 & H2). repeat split; try assumption.
        -- destruct start_date as [|d|]; try reflexivity.
           specialize (H1 d eq_refl). lia.
        -- destruct end_date as [|d|]; try reflexivity.
           specialize (H2 d eq_refl). lia.
Qed.

(** * More on the normalisation function *)

Section Signs.

Local Open Scope float_scope.

Local Abbreviation mul := (SFmul prec emax).
Local Abbreviation sub := (SFsub prec emax).

Lemma expense_is_negated_income_spec x r :
  SFsame (sub (SFopp x) (mul (S754_zero false) r))
         (SFopp (sub x (mul (S754_zero false) r))).
Proof.
  destruct r as [[]|[]| |[] m e], x as [[]|[]| |[] mx ex]; cbn;
    first [now left | now right].
Qed.

Lemma py_or_finite (r : option float) :
  (forall x, r = Some x -> finite x = true) ->
  exists s m e, Prim2SF (py_or r 1) = S754_finite s m e.
Proof.
  intros H. destruct r as [x|]; [|now exists false, 4503599627370496%positive, (-52)%Z].
  specialize (H x eq_refl). unfold py_or, truthy.
  rewrite FloatAxioms.eqb_spec, Prim2SF_zero. unfold finite in H. unfold SFeqb.
  destruct (Prim2SF x) as [[]|[]| |s m e] eqn:E; try discriminate H; cbn;
    try (now exists false, 4503599627370496%positive, (-52)%Z).
  destruct s; cbn; rewrite E; eauto.
Qed.

(** X15. Without a fee (missing, or 0), the net value under every
    direction other than Income is the negated net value of the Income, as
    a number, for every amount and rate, present or not. *)
Theorem expense_without_fee_negates_income (d : string) (a r : option float) :
  d <> income ->
  same_number (compute_net_cny d a None r) (- compute_net_cny income a None r)
  /\ same_number (compute_net_cny d a (Some 0) r)
                 (- compute_net_cny income a (Some 0) r).
Proof.
  intros Hd.
  assert (H : same_number (compute_net_cny d a None r)
                          (- compute_net_cny income a None r)).
  { rewrite (other_branch d) by assumption. rewrite income_branch.
    change (py_or None 0) with 0.
    apply same_number_spec.
    rewrite !FloatAxioms.opp_spec, !FloatAxioms.sub_spec, FloatAxioms.opp_spec,
      !FloatAxioms.mul_spec, Prim2SF_zero.
    apply expense_is_negated_income_spec. }
  split; exact H.
Qed.

Lemma expense_without_fee_negates_income_witness :
  same_number (compute_net_cny expense (Some 300) None (Some 1))
              (- compute_net_cny income (Some 300) None (Some 1)).
Proof.
  refine (proj1 (expense_without_fee_negates_income expense (Some 300) (Some 1) _)).
  discriminate.
Defined.

(** X16. With no amount and no fee (missing, or 0) the net value is the
    number 0 under every direction, at every rate that is missing or a
    finite float. *)
Theorem nothing_nets_to_zero (d : string) (r : option float) :
  (forall x, r = Some x -> finite x = true) ->
  same_number (compute_net_cny d None None r) 0
  /\ same_number (compute_net_cny d (Some 0) (Some 0) r) 0.
Proof.
  intros Hr.
  assert (H : same_number (compute_net_cny d None None r) 0).
  { destruct (py_or_finite r Hr) as (s & m & e & Er).
    apply same_number_spec. right. rewrite Prim2SF_zero.
    destruct (String.eqb_spec d income) as [->|Hd].
    - rewrite income_branch. change (py_or None 0) with 0.
      rewrite FloatAxioms.sub_spec, FloatAxioms.mul_spec, Prim2SF_zero, Er.
      now destruct s.
    - rewrite other_branch by assumption. change (py_or None 0) with 0.
      rewrite FloatAxioms.sub_spec, FloatAxioms.opp_spec, FloatAxioms.mul_spec,
        Prim2SF_zero, Er.
      now destruct s. }
  split; exact H.
Qed.

Lemma nothing_nets_to_zero_witness :
  same_number (compute_net_cny expense None None (Some 7.8)) 0.
Proof.
  refine (proj1 (nothing_nets_to_zero expense (Some 7.8) _)).
  now intros x [= <-].
Defined.

End Signs.

(** * The calendar and the report windows *)

Section Calendar.

Local Open Scope Z_scope.

Lemma month_day_table leap n :
  0 <= n < 365 -> month_day_ok leap (Z.to_nat n) = true.
Proof.
  intros H.
  assert (Hall : forallb (month_day_ok leap) (seq 0 365) = true)
    by (destruct leap; vm_compute; reflexivity).
  rewrite forallb_forall in Hall. apply Hall. apply in_seq. lia.
Qed.

Lemma ord2ymd_month_day n :
  let n0 := n - 1 in
  let a := n0 / 146097 in let r1 := n0 mod 146097 in
  let b := r1 / 36524 in let r2 := r1 mod 36524 in
  let c := r2 / 1461 in let r3 := r2 mod 1461 in
  let e := r3 / 365 in let r4 := r3 mod 365 in
  let year := a * 400 + 1 + b * 100 + c * 4 + e in
  ord2ymd n =
  if (e =? 4) || (b =? 4) then (year - 1, 12, 31)
  else let leap := (e =? 3) && (negb (c =? 24) || (b =? 3)) in
       (year, fst (month_day r4 leap), snd (month_day r4 leap)).
Proof.
  cbv zeta. unfold ord2ymd, month_day. cbv zeta.
  destruct (_ || _); [reflexivity|].
  now destruct (_ <? _).
Qed.

Lemma is_leap_spec a b c e :
  0 <= b <= 3 -> 0 <= c <= 24 -> 0 <= e <= 3 ->
  is_leap (a * 400 + 1 + b * 100 + c * 4 + e)
  = (e =? 3) && (negb (c =? 24) || (b =? 3)).
Proof.
  intros Hb Hc He. unfold is_leap.
  destruct (Z.eqb_spec e 3), (Z.eqb_spec c 24), (Z.eqb_spec b 3); cbn;
  repeat match goal with
  | |- context [?x mod ?k =? 0] => destruct (Z.eqb_spec (x mod k) 0)
  end; cbn; try reflexivity; exfalso; Z.div_mod_to_equations; lia.
Qed.

Lemma days_before_year_spec a b c e :
  0 <= b <= 3 -> 0 <= c <= 24 -> 0 <= e <= 3 ->
  days_before_year (a * 400 + 1 + b * 100 + c * 4 + e)
  = 146097 * a + 36524 * b + 1461 * c + 365 * e.
Proof.
  intros Hb Hc He. unfold days_before_year. cbv zeta.
  Z.div_mod_to_equations. lia.
Qed.

Lemma first_of_month n :
  1 <= day_of n <= 31 /\ 1 <= month_of n <= 12
  /\ replace_day_1 n = n - day_of n + 1.
Proof.
  unfold replace_day_1, day_of, month_of, year_of.
  rewrite ord2ymd_month_day. cbv zeta.
  pose proof (Z.div_mod (n - 1) 146097 ltac:(lia)) as E1.
  pose proof (Z.mod_pos_bound (n - 1) 146097 ltac:(lia)) as B1.
  set (a := (n - 1) / 146097) in *. set (r1 := (n - 1) mod 146097) in *.
  pose proof (Z.div_mod r1 36524 ltac:(lia)) as E2.
  pose proof (Z.mod_pos_bound r1 36524 ltac:(lia)) as B2.
  set (b := r1 / 36524) in *. set (r2 := r1 mod 36524) in *.
  pose proof (Z.div_mod r2 1461 ltac:(lia)) as E3.
  pose proof (Z.mod_pos_bound r2 1461 ltac:(lia)) as B3.
  set (c := r2 / 1461) in *. set (r3 := r2 mod 1461) in *.
  pose proof (Z.div_mod r3 365 ltac:(lia)) as E4.
  pose proof (Z.mod_pos_bound r3 365 ltac:(lia)) as B4.
  set (e := r3 / 365) in *. set (r4 := r3 mod 365) in *.
  clearbody a r1 b r2 c r3 e r4.
  assert (Hb : 0 <= b <= 4) by lia. assert (Hc : 0 <= c <= 24) by lia.
  assert (He : 0 <= e <= 4) by lia.
  destruct (Z.eqb_spec e 4) as [E|E]; [|destruct (Z.eqb_spec b 4) as [Eb|Eb]];
    cbn [orb fst snd].
  - (* the last day of a leap year *)
    split; [lia|]. split; [lia|].
    assert (Hc' : c <= 23) by lia.
    unfold ymd2ord, days_before_month.
    assert (Hleap : is_leap (a * 400 + 1 + b * 100 + c * 4 + e - 1) = true).
    { unfold is_leap. subst e.
      repeat match goal with
      | |- context [?x mod ?k =? 0] => destruct (Z.eqb_spec (x mod k) 0)
      end; cbn; try reflexivity; exfalso; Z.div_mod_to_equations; lia. }
    rewrite Hleap. change (nth (Z.to_nat 12) _ 0) with 334.
    change (2 <? 12) with true. cbn [andb].
    unfold days_before_year. cbv zeta. Z.div_mod_to_equations. lia.
  - split; [lia|]. split; [lia|].
    unfold ymd2ord, days_before_month.
    assert (Hleap : is_leap (a * 400 + 1 + b * 100 + c * 4 + e - 1) = true).
    { unfold is_leap. subst b.
      repeat match goal with
      | |- context [?x mod ?k =? 0] => destruct (Z.eqb_spec (x mod k) 0)
      end; cbn; try reflexivity; exfalso; Z.div_mod_to_equations; lia. }
    rewrite Hleap. change (nth (Z.to_nat 12) _ 0) with 334.
    change (2 <? 12) with true. cbn [andb].
    unfold days_before_year. cbv zeta. Z.div_mod_to_equations. lia.
  - assert (Hb' : 0 <= b <= 3) by lia. assert (He' : 0 <= e <= 3) by lia.
    set (leap := (e =? 3) && (negb (c =? 24) || (b =? 3))).
    pose proof (month_day_table leap r4 B4) as T.
    unfold month_day_ok in T. rewrite Z2Nat.id in T by lia.
    destruct (month_day r4 leap) as [m d]. cbn [fst snd].
    rewrite !andb_true_iff in T. destruct T as [[[[T1 T2] T3] T4] T5].
    split; [lia|]. split; [lia|].
    unfold ymd2ord, days_before_month.
    rewrite is_leap_spec, days_before_year_spec by assumption. fold leap.
    apply Z.eqb_eq in T5. lia.
Qed.


Lemma days_before_year_step y1 y2 :
  y1 < y2 -> days_before_year y1 + 365 <= days_before_year y2.
Proof. intros H. unfold days_before_year. cbv zeta. Z.div_mod_to_equations. lia. Qed.

Lemma days_before_month_bounds y m :
  1 <= m <= 12 -> 0 <= days_before_month y m <= 335.
Proof.
  intros H. unfold days_before_month. generalize (is_leap y). intros L.
  assert (Hm : m = 1 \/ m = 2 \/ m = 3 \/ m = 4 \/ m = 5 \/ m = 6 \/ m = 7
               \/ m = 8 \/ m = 9 \/ m = 10 \/ m = 11 \/ m = 12) by lia.
  clear H.
  destruct L; repeat (destruct Hm as [->|Hm]); try subst m;
    split; apply Z.leb_le; reflexivity.
Qed.

Lemma days_before_month_gap y m1 m2 :
  1 <= m1 -> m1 < m2 -> m2 <= 12 ->
  0 <= days_before_month y m1 /\ days_before_month y m1 + 28 <= days_before_month y m2
  /\ days_before_month y m2 <= 335.
Proof.
  intros H1 H12 H2. unfold days_before_month. generalize (is_leap y). intros L.
  assert (Hm1 : m1 = 1 \/ m1 = 2 \/ m1 = 3 \/ m1 = 4 \/ m1 = 5 \/ m1 = 6 \/ m1 = 7
                \/ m1 = 8 \/ m1 = 9 \/ m1 = 10 \/ m1 = 11) by lia.
  assert (Hm2 : m2 = 2 \/ m2 = 3 \/ m2 = 4 \/ m2 = 5 \/ m2 = 6 \/ m2 = 7
                \/ m2 = 8 \/ m2 = 9 \/ m2 = 10 \/ m2 = 11 \/ m2 = 12) by lia.
  clear H1 H2.
  (destruct L;
    repeat (destruct Hm1 as [->|Hm1]); try subst m1;
    repeat (destruct Hm2 as [->|Hm2]); try subst m2;
    first [ exfalso; clear -H12; lia
          | clear H12; (split; [|split]); apply Z.leb_le; reflexivity ]).
Qed.

Lemma first_gap y1 m1 y2 m2 :
  1 <= m1 <= 12 -> 1 <= m2 <= 12 ->
  y1 < y2 \/ (y1 = y2 /\ m1 < m2) ->
  ymd2ord y1 m1 1 + 28 <= ymd2ord y2 m2 1.
Proof.
  intros H1 H2 [Hy|[-> Hm]]; unfold ymd2ord.
  - pose proof (days_before_year_step y1 y2 Hy) as Hs.
    pose proof (days_before_month_bounds y1 m1 H1) as Hb1.
    pose proof (days_before_month_bounds y2 m2 H2) as Hb2.
    revert Hs Hb1 Hb2.
    generalize (days_before_year y1) (days_before_year y2)
               (days_before_month y1 m1) (days_before_month y2 m2).
    intros. lia.
  - pose proof (days_before_month_gap y2 m1 m2 ltac:(lia) Hm ltac:(lia)) as Hg.
    revert Hg.
    generalize (days_before_year y2) (days_before_month y2 m1)
               (days_before_month y2 m2).
    intros. lia.
Qed.

(** The day before the first of a month is a 28th or later. *)
Lemma last_of_month n : 28 <= day_of (replace_day_1 n - 1).
Proof.
  destruct (first_of_month n) as (_ & Hm & Hq).
  destruct (first_of_month (replace_day_1 n - 1)) as (Hd' & Hm' & Hq').
  rewrite Hq in *.
  remember (n - day_of n + 1 - 1) as p eqn:Ep.
  unfold replace_day_1 in Hq, Hq'.
  assert (Hcmp : ymd2ord (year_of p) (month_of p) 1 + 28
                 <= ymd2ord (year_of n) (month_of n) 1).
  { destruct (Z.lt_trichotomy (year_of p) (year_of n)) as [Hy|[Hy|Hy]].
    - apply first_gap; auto.
    - destruct (Z.lt_trichotomy (month_of p) (month_of n)) as [Hmm|[Hmm|Hmm]].
      + apply first_gap; auto.
      + exfalso. rewrite Hy, Hmm, Hq in Hq'. clear -Hq' Hd' Ep. lia.
      + exfalso.
        pose proof (first_gap (year_of n) (month_of n) (year_of p) (month_of p)
                      Hm Hm' (or_intror (conj (eq_sym Hy) Hmm))) as Hg.
        rewrite Hq, Hq' in Hg. clear -Hg Hd' Ep. lia.
    - exfalso.
      pose proof (first_gap (year_of n) (month_of n) (year_of p) (month_of p)
                    Hm Hm' (or_introl Hy)) as Hg.
      rewrite Hq, Hq' in Hg. clear -Hg Hd' Ep. lia. }
  rewrite Hq, Hq' in Hcmp. clear -Hcmp Ep. lia.
Qed.

(** X17. The windows of the dashboard reach back from today: the
    month-to-date range starts on or before today, [day - 1 <= 30] days back;
    the monthly trend starts between 178 and 211 days before today, so that
    the 30-day window lies within it. No range is inverted. *)
Theorem report_windows_reach_back (today : Z) :
  replace_day_1 today = today - (day_of today - 1)
  /\ today - 30 <= replace_day_1 today <= today
  /\ sub_days today 6 <= today
  /\ today - 211 <= six_months_ago today <= today - 178
  /\ six_months_ago today <= sub_days today 29.
Proof.
  destruct (first_of_month today) as (Hd & _ & Hq).
  pose proof (last_of_month today) as Hl.
  destruct (first_of_month (replace_day_1 today - 1)) as (Hd' & _ & Hq').
  unfold six_months_ago, sub_days.
  revert Hd Hq Hl Hd' Hq'.
  generalize (day_of (replace_day_1 today - 1))
             (replace_day_1 (replace_day_1 today - 1)).
  generalize (replace_day_1 today) (day_of today).
  intros. lia.
Qed.

End Calendar.

(** * The sign of the net value, and today's figure *)

Section SignPolicy.

Local Open Scope float_scope.

Local Abbreviation mul := (SFmul prec emax).
Local Abbreviation sub := (SFsub prec emax).

Lemma binary_round_aux_has_sign s m e l :
  has_sign s (binary_round_aux prec emax s m e l).
Proof.
  unfold binary_round_aux.
  destruct (shr_fexp prec emax m e l) as [mrs' e'].
  destruct (shr_fexp prec emax _ e' loc_Exact) as [mrs'' e''].
  destruct (shr_m mrs''); cbn; try reflexivity.
  now destruct (Z.leb e'' _).
Qed.

Lemma mul_has_sign sx sy x y :
  has_sign sx x -> has_sign sy y -> has_sign (xorb sx sy) (mul x y).
Proof.
  destruct x as [s1|s1| |s1 m1 e1], y as [s2|s2| |s2 m2 e2]; cbn;
    try (intros; exact I); try (intros -> ->; reflexivity).
  intros -> ->. apply binary_round_aux_has_sign.
Qed.

Lemma binary_normalize_neg p q e :
  has_sign true
    (binary_normalize prec emax
       (Z.sub (cond_Zopp true (Z.pos p)) (cond_Zopp false (Z.pos q))) e false).
Proof.
  change (Z.sub (cond_Zopp true (Z.pos p)) (cond_Zopp false (Z.pos q)))
    with (Z.neg (p + q)).
  unfold binary_normalize, binary_round.
  destruct (shl_align _ _ _) as [mz ez]. apply binary_round_aux_has_sign.
Qed.

Lemma sub_has_sign x y :
  has_sign true x -> has_sign false y -> has_sign true (sub x y).
Proof.
  destruct x as [s1|s1| |s1 m1 e1], y as [s2|s2| |s2 m2 e2]; cbn;
    try (intros; exact I); try (intros -> ->; reflexivity).
  intros -> ->. apply binary_normalize_neg.
Qed.

Lemma sub_zero_mul_has_sign x r :
  has_sign false x -> has_sign false r ->
  has_sign false (sub x (mul (S754_zero false) r)).
Proof.
  intros Hx Hr.
  destruct r as [s|s| |s m e]; cbn in Hr; subst; cbn [SFmul xorb];
    rewrite ?sub_zero_r; try assumption; now destruct x.
Qed.

Lemma has_sign_opp s x : has_sign s x -> has_sign (negb s) (SFopp x).
Proof. destruct x; cbn; try (intros ->; reflexivity). intros _. exact I. Qed.

Lemma not_positive x : has_sign true x -> SFltb (S754_zero false) x = false.
Proof. destruct x as [s|s| |s m e]; cbn; try reflexivity; now intros ->. Qed.

Lemma not_negative x : has_sign false x -> SFltb x (S754_zero false) = false.
Proof. destruct x as [s|s| |s m e]; cbn; try reflexivity; now intros ->. Qed.

Lemma py_or_nonneg a :
  (0 <=? a) = true -> has_sign false (Prim2SF (py_or (Some a) 0)).
Proof.
  rewrite FloatAxioms.leb_spec, Prim2SF_zero. intros Ha.
  pose proof (py_or_not_neg_zero (Some a)) as Hnz.
  destruct (py_or_zero_fixed a) as [E|[_ E]]; rewrite E in *; [|reflexivity].
  destruct (Prim2SF a) as [[]|[]| |[] m e]; try discriminate Ha; try reflexivity.
  now destruct Hnz.
Qed.

Lemma pos_has_sign r : (0 <? r) = true -> has_sign false (Prim2SF r).
Proof.
  rewrite FloatAxioms.ltb_spec, Prim2SF_zero. unfold SFltb.
  now destruct (Prim2SF r) as [[]|[]| |[] m e].
Qed.

(** X18. With an amount and a fee that are not negative and a positive
    rate, the net value under every direction other than Income is never
    positive, and the net value of an Income without fee is never
    negative. *)
Theorem net_sign_follows_direction (d : string) (a f r : float) :
  (0 <=? a) = true -> (0 <=? f) = true -> (0 <? r) = true ->
  (d <> income ->
   (0 <? compute_net_cny d (Some a) (Some f) (Some r)) = false)
  /\ (compute_net_cny income (Some a) None (Some r) <? 0) = false.
Proof.
  intros Ha Hf Hr.
  pose proof (py_or_nonneg a Ha) as Sa. pose proof (py_or_nonneg f Hf) as Sf.
  pose proof (pos_has_sign r Hr) as Sr.
  pose proof (truthy_of_pos r Hr) as Tr.
  split.
  - intros Hd. rewrite other_branch, (py_or_truthy r) by assumption.
    rewrite FloatAxioms.ltb_spec, Prim2SF_zero, FloatAxioms.sub_spec,
      FloatAxioms.opp_spec, !FloatAxioms.mul_spec.
    apply not_positive, sub_has_sign.
    + apply (has_sign_opp false), (mul_has_sign false false); assumption.
    + apply (mul_has_sign false false); assumption.
  - rewrite income_branch, (py_or_truthy r) by assumption.
    change (py_or None 0) with 0.
    rewrite FloatAxioms.ltb_spec, Prim2SF_zero, FloatAxioms.sub_spec,
      !FloatAxioms.mul_spec, Prim2SF_zero.
    apply not_negative, sub_zero_mul_has_sign; [|assumption].
    apply (mul_has_sign false false); assumption.
Qed.

Lemma net_sign_follows_direction_witness :
  (0 <? compute_net_cny expense (Some 50) (Some 1) (Some 7.8)) = false.
Proof.
  refine (proj1 (net_sign_follows_direction expense 50 1 7.8
                   eq_refl eq_refl eq_refl) _).
  discriminate.
Defined.

End SignPolicy.

Section TodayFigure.

Local Open Scope float_scope.

(** Rounding sees [x or 0.0] as it sees [x]. *)
Lemma round_py_or x : same_number (py_round2 (py_or (Some x) 0)) (py_round2 x).
Proof.
  destruct (py_or_zero_fixed x) as [E|[E1 E2]].
  - left. f_equal. now apply Prim2SF_inj.
  - assert (Ex : x = (-0)%float) by (apply Prim2SF_inj; now rewrite E1).
    assert (Eo : py_or (Some x) 0 = 0) by (apply Prim2SF_inj; now rewrite E2).
    rewrite Eo, Ex. now right.
Qed.

Lemma on_day_today u (today : Z) es :
  on_day u (today - 29) today (today - 29 + Z.of_nat 29) es
  = filter (fun e => (e_user_id e =? u)%Z && (today <=? e_date e)%Z
                     && (e_date e <=? today)%Z) es.
Proof.
  unfold on_day. rewrite filter_filter_and. apply list_filter_iff. intros e.
  rewrite !andb_True, !Is_true_true, !Z.eqb_eq, !Z.leb_le. lia.
Qed.


End TodayFigure.
